(** * Whisper STT server (hybrid model): lane dispatch and artifact lifecycle

    A shallow embedding of [main_stt.py]: the two transcription lanes
    ([run_transcription_fast_lane], [run_transcription_slow_lane]) and the
    endpoint [create_transcription] that routes a request to one of them.

    Python code becomes functions in a state-and-exception monad over a
    [World] (the filesystem, the temp-name generator, the lock [model_lock]
    and a trace of the calls made to the outside).  The speech engine, the
    worker process, the JSON parser and the float printer are collaborators
    of the program and are parameters of the model ([Deployment]). *)

From Stdlib Require Import ZArith Ascii String List.
From Stdlib.Strings Require Import Byte.
From stdpp Require Import gmap strings list fin_maps.

Local Open Scope string_scope.
Local Open Scope Z_scope.

(** ** Python strings and [os.path] (posixpath) *)

Module PyStr.

(** [s[n:]] *)
Fixpoint sdrop (n : nat) (s : string) : string :=
  match n, s with
  | O, _ => s
  | S _, EmptyString => EmptyString
  | S n', String _ r => sdrop n' r
  end.

(** [s[:n]] *)
Fixpoint stake (n : nat) (s : string) : string :=
  match n, s with
  | O, _ => EmptyString
  | S _, EmptyString => EmptyString
  | S n', String a r => String a (stake n' r)
  end.

(** [s.rfind(c)] for a one-character [c]: the highest index, or -1. *)
Fixpoint rfind (c : ascii) (s : string) : Z :=
  match s with
  | EmptyString => -1
  | String a r =>
      let i := rfind c r in
      if 0 <=? i then i + 1
      else if Ascii.eqb a c then 0 else -1
  end.

(** [c in s] for a one-character [c]. *)
Fixpoint has (c : ascii) (s : string) : bool :=
  match s with
  | EmptyString => false
  | String a r => Ascii.eqb a c || has c r
  end.

Definition startswith (c : ascii) (s : string) : bool :=
  match s with
  | String a _ => Ascii.eqb a c
  | EmptyString => false
  end.

Fixpoint endswith (c : ascii) (s : string) : bool :=
  match s with
  | EmptyString => false
  | String a EmptyString => Ascii.eqb a c
  | String _ r => endswith c r
  end.

(** [needle in s] (substring test). *)
Fixpoint contains (needle s : string) : bool :=
  String.prefix needle s ||
  match s with
  | EmptyString => false
  | String _ r => contains needle r
  end.

(** [sep.join(l)] *)
Fixpoint join_with (sep : string) (l : list string) : string :=
  match l with
  | [] => EmptyString
  | [x] => x
  | x :: r => x ++ sep ++ join_with sep r
  end.

(** Truth value of an [Optional[str]]: [None] and the empty string are false. *)
Definition truthy (o : option string) : bool :=
  match o with
  | None => false
  | Some EmptyString => false
  | Some (String _ _) => true
  end.

Definition sep : ascii := "/"%char.
Definition extsep : ascii := "."%char.

(** [os.path.basename] *)
Definition basename (p : string) : string :=
  let i := rfind sep p + 1 in
  sdrop (Z.to_nat i) p.

(** The [while filenameIndex < dotIndex] loop of [genericpath._splitext]:
    [true] when a character other than the dot stands before the last
    dot of the file name.  [n] counts the iterations left. *)
Fixpoint splitext_scan (n : nat) (s : string) : bool :=
  match n, s with
  | O, _ => false
  | S _, EmptyString => true
  | S n', String a r => if Ascii.eqb a extsep then splitext_scan n' r else true
  end.

(** [os.path.splitext] *)
Definition splitext (p : string) : string * string :=
  let sepIndex := rfind sep p in
  let dotIndex := rfind extsep p in
  if (sepIndex <? dotIndex)
     && splitext_scan (Z.to_nat (dotIndex - (sepIndex + 1)))
                      (sdrop (Z.to_nat (sepIndex + 1)) p)
  then (stake (Z.to_nat dotIndex) p, sdrop (Z.to_nat dotIndex) p)
  else (p, EmptyString).

(** [os.path.join(a, b)] *)
Definition join (a b : string) : string :=
  if startswith sep b then b
  else if String.eqb a EmptyString || endswith sep a then a ++ b
  else a ++ "/" ++ b.

(** *** [repr] of a [str] and of a list of [str] *)

Definition dquote : ascii := ascii_of_N 34.

Definition hex_digit (n : N) : ascii :=
  match n with
  | 0 => "0" | 1 => "1" | 2 => "2" | 3 => "3" | 4 => "4" | 5 => "5"
  | 6 => "6" | 7 => "7" | 8 => "8" | 9 => "9" | 10 => "a" | 11 => "b"
  | 12 => "c" | 13 => "d" | 14 => "e" | _ => "f"
  end%N%char.

Definition repr_char (quote : ascii) (a : ascii) : string :=
  let n := N_of_ascii a in
  if Ascii.eqb a "\"%char then "\\"
  else if Ascii.eqb a quote then String "\"%char (String quote EmptyString)
  else if (n =? 10)%N then "\n"
  else if (n =? 13)%N then "\r"
  else if (n =? 9)%N then "\t"
  else if (n <? 32)%N || (n =? 127)%N
       then String "\"%char (String "x"%char
              (String (hex_digit (n / 16)) (String (hex_digit (n mod 16)) EmptyString)))
  else String a EmptyString.

Fixpoint repr_body (quote : ascii) (s : string) : string :=
  match s with
  | EmptyString => EmptyString
  | String a r => repr_char quote a ++ repr_body quote r
  end.

(** [repr(s)]: single quotes unless [s] has a single and no double quote. *)
Definition repr (s : string) : string :=
  let quote := if has "'"%char s && negb (has dquote s)
               then dquote else "'"%char in
  String quote (repr_body quote s ++ String quote EmptyString).

(** [repr(l)] = [str(l)] for a list of [str]. *)
Definition repr_list (l : list string) : string :=
  "[" ++ join_with ", " (map repr l) ++ "]".

(** [str(n)] for an [int]. *)
Definition digit (n : N) : ascii := ascii_of_N (48 + n).

Fixpoint str_pos_fuel (fuel : nat) (n : N) (acc : string) : string :=
  match fuel with
  | O => acc
  | S f =>
      let acc' := String (digit (n mod 10)) acc in
      if (n / 10 =? 0)%N then acc' else str_pos_fuel f (n / 10)%N acc'
  end.

Definition str_int (z : Z) : string :=
  let n := Z.to_N (Z.abs z) in
  let d := str_pos_fuel (S (N.to_nat (N.log2 n))) n EmptyString in
  if z <? 0 then "-" ++ d else d.

End PyStr.


(** ** Python values, exceptions and results *)

(** What [json.load] and the engine hand back.  A [dict] keeps its
    insertion order; [VFloat] carries the literal. *)
#[local] Set Warnings "-register-all".

Inductive pyval :=
| VNone
| VBool (b : bool)
| VInt (n : Z)
| VFloat (lit : string)
| VStr (s : string)
| VList (l : list pyval)
| VDict (d : list (string * pyval)).

Inductive exn :=
| OSError (errno : Z) (strerror : string) (filename : option string)
| CalledProcessError (returncode : Z) (cmd : list string) (output stderr : string)
| KeyError (key : string)
| TypeError (msg : string)
| RuntimeError (msg : string)
| AttributeError (msg : string)
| OtherException (cls msg : string)
| HTTPException (status_code : Z) (detail : string).

Inductive result (A : Type) :=
| Ok (a : A)
| Raise (e : exn).
Arguments Ok {A} a.
Arguments Raise {A} e.

Definition EEXIST : Z := 17.
Definition EPERM : Z := 1.
Definition ENOENT : Z := 2.
Definition ENOSPC : Z := 28.

(** [d[key]] on a dict. *)
Fixpoint dict_get (key : string) (d : list (string * pyval)) : option pyval :=
  match d with
  | [] => None
  | (k, v) :: r => if String.eqb k key then Some v else dict_get key r
  end.

(** [res[key]] for a [str] key: only a dict can answer. *)
Definition getitem (res : pyval) (key : string) : result pyval :=
  match res with
  | VDict d =>
      match dict_get key d with
      | Some v => Ok v
      | None => Raise (KeyError key)
      end
  | VList _ => Raise (TypeError "list indices must be integers or slices, not str")
  | VStr _ => Raise (TypeError "string indices must be integers, not 'str'")
  | VNone => Raise (TypeError "'NoneType' object is not subscriptable")
  | VBool _ => Raise (TypeError "'bool' object is not subscriptable")
  | VInt _ => Raise (TypeError "'int' object is not subscriptable")
  | VFloat _ => Raise (TypeError "'float' object is not subscriptable")
  end.

(** ** The state-and-exception monad *)

Definition M (S A : Type) : Type := S -> result A * S.

Definition ret {S A} (a : A) : M S A := fun s => (Ok a, s).
Definition raise {S A} (e : exn) : M S A := fun s => (Raise e, s).
Definition bind {S A B} (c : M S A) (k : A -> M S B) : M S B :=
  fun s =>
    match c s with
    | (Ok a, s') => k a s'
    | (Raise e, s') => (Raise e, s')
    end.
Definition of_result {S A} (r : result A) : M S A := fun s => (r, s).

Declare Scope py_scope.
Delimit Scope py_scope with py.
Notation "x <- c ;; k" := (bind c (fun x => k))
  (at level 100, c at next level, right associativity) : py_scope.
Notation "c ;;; k" := (bind c (fun _ => k))
  (at level 100, right associativity) : py_scope.
Local Open Scope py_scope.

(** [try: body finally: fin].  [fin] always runs; when it raises, its
    exception replaces whatever [body] returned or raised. *)
Definition try_finally {S A} (body : M S A) (fin : M S unit) : M S A :=
  fun s =>
    let (r, s1) := body s in
    match fin s1 with
    | (Ok _, s2) => (r, s2)
    | (Raise e, s2) => (Raise e, s2)
    end.

(** [try: body except Exception as e: handler(e)] *)
Definition try_except {S A} (body : M S A) (handler : exn -> M S A) : M S A :=
  fun s =>
    match body s with
    | (Ok a, s') => (Ok a, s')
    | (Raise e, s') => handler e s'
    end.

(** Local variables of a function body live next to the world. *)
Definition lift {W L A} (c : M W A) : M (W * L) A :=
  fun s => let (r, w') := c (fst s) in (r, (w', snd s)).
Definition get_locals {W L} : M (W * L) L := fun s => (Ok (snd s), s).
Definition set_locals {W L} (l : L) : M (W * L) unit := fun s => (Ok tt, (fst s, l)).
Definition with_locals {W L A} (init : L) (c : M (W * L) A) : M W A :=
  fun w => let (r, s') := c (w, init) in (r, fst s').

(** A step preserves [R] when [R] relates every state to the one the step
    leaves, whether it returns or raises. *)
Definition preserves {S A} (R : S -> S -> Prop) (c : M S A) : Prop :=
  forall s, R s (snd (c s)).

(** [R] on the world, whatever the locals. *)
Definition on_world {W L} (R : W -> W -> Prop) (s s' : W * L) : Prop :=
  R (fst s) (fst s').

(** ** The deployment: configuration and external collaborators *)

(** What a spawned process leaves behind: it could not be started, or it
    ran, changed the files and exited. *)
Inductive spawned :=
| SpawnFailed (e : exn)
| Exited (files' : gmap string (list byte)) (returncode : Z) (stdout stderr : string).

Class Deployment := {
  (** Python's [float] and its [str] *)
  float : Type;
  float_str : float -> string;
  (** [MODEL_CACHE_DIR], [model_name] (both from environment variables),
      [tempfile.gettempdir()] and [os.environ] *)
  MODEL_CACHE_DIR : string;
  model_name : string;
  gettempdir : string;
  environ : gmap string string;
  (** the size of the buffer [open] gives a binary file at a path: the
      block size of its device, [io.DEFAULT_BUFFER_SIZE] when unknown *)
  buffer_size : string -> nat;
  (** [repr(signal.Signals(n))], [None] where that raises [ValueError] *)
  signal_repr : Z -> option string;
  (** [whisper_model]: [None] when loading failed, else the [transcribe]
      method of the loaded model, which reads the audio file *)
  whisper_model :
    option (gmap string (list byte) -> string -> option string -> option string ->
            float -> result pyval);
  (** the process started by [subprocess.run] for a command and environment *)
  worker : list string -> gmap string string -> gmap string (list byte) -> spawned;
  (** [json.load] on the bytes of a file opened in text mode *)
  json_load : list byte -> result pyval
}.

Definition VENV_PYTHON : string := "/usr/local/lib/whisper/bin/python".
Definition WHISPER_SCRIPT : string := "/usr/local/lib/whisper/bin/whisper".

(** [tempfile._RandomNameSequence.characters], and the names made of them *)
Definition characters : string := "abcdefghijklmnopqrstuvwxyz0123456789_".

Fixpoint candidate (name : string) : bool :=
  match name with
  | EmptyString => true
  | String c r => PyStr.has c characters && candidate r
  end.

Section Server.
Context `{D : Deployment}.

(** Calls that leave the process, in the order they are made. *)
Inductive event :=
| EvAcquire (got : bool)
| EvRelease
| EvTranscribe (path : string) (language prompt : option string) (temperature : float)
| EvSpawn (cmd : list string) (env : gmap string string).

Record World := mkWorld {
  files : gmap string (list byte);
  (** paths the operating system refuses to unlink *)
  immutable : gset string;
  (** bytes a single write may still store *)
  disk_free : nat;
  (** the names [tempfile]'s generator will produce, in order *)
  names : list string;
  (** [model_lock] *)
  locked : bool;
  trace : list event
}.

Definition set_files (f : gmap string (list byte)) (w : World) : World :=
  mkWorld f (immutable w) (disk_free w) (names w) (locked w) (trace w).
Definition set_names (n : list string) (w : World) : World :=
  mkWorld (files w) (immutable w) (disk_free w) n (locked w) (trace w).
Definition set_locked (b : bool) (w : World) : World :=
  mkWorld (files w) (immutable w) (disk_free w) (names w) b (trace w).
Definition emit (e : event) : M World unit :=
  fun w => (Ok tt, mkWorld (files w) (immutable w) (disk_free w) (names w)
                           (locked w) (trace w ++ [e])).


Definition is_transcribe (e : event) : bool :=
  match e with
  | EvTranscribe _ _ _ _ => true
  | _ => false
  end.


(** From [w] to [w'] the lock is as it was and no event selected by
    [keep] was made. *)
Definition kept (keep : event -> bool) (w w' : World) : Prop :=
  locked w' = locked w /\
  List.filter keep (trace w') = List.filter keep (trace w).

(** *** [str(e)] *)

Definition str_exn (e : exn) : string :=
  match e with
  | OSError errno strerror filename =>
      "[Errno " ++ PyStr.str_int errno ++ "] " ++ strerror ++
      match filename with
      | Some f => ": " ++ PyStr.repr f
      | None => EmptyString
      end
  | CalledProcessError returncode cmd _ _ =>
      if returncode <? 0 then
        match signal_repr (- returncode) with
        | Some sig => "Command '" ++ PyStr.repr_list cmd ++ "' died with " ++ sig ++ "."
        | None => "Command '" ++ PyStr.repr_list cmd ++ "' died with unknown signal "
                    ++ PyStr.str_int (- returncode) ++ "."
        end
      else "Command '" ++ PyStr.repr_list cmd ++ "' returned non-zero exit status "
             ++ PyStr.str_int returncode ++ "."
  | KeyError key => PyStr.repr key
  | TypeError msg => msg
  | RuntimeError msg => msg
  | AttributeError msg => msg
  | OtherException _ msg => msg
  | HTTPException status_code detail => PyStr.str_int status_code ++ ": " ++ detail
  end.

(** *** Files *)

(** [tempfile.NamedTemporaryFile(delete=False, suffix=.., dir=..)]:
    [_mkstemp_inner] takes candidate names until one is free, creates the
    empty file and gives its path; [FileExistsError] when none is left.
    [dir] is taken as the absolute, normalised path it is given as. *)
Fixpoint mkstemp_inner (dir pre suf : string) (cands : list string)
    (fs : gmap string (list byte)) : option (string * list string) :=
  match cands with
  | [] => None
  | name :: rest =>
      let file := PyStr.join dir (pre ++ name ++ suf) in
      match fs !! file with
      | Some _ => mkstemp_inner dir pre suf rest fs
      | None => Some (file, rest)
      end
  end.

Definition NamedTemporaryFile (suffix dir : string) : M World string :=
  fun w =>
    match mkstemp_inner dir "tmp" suffix (names w) (files w) with
    | Some (file, rest) =>
        (Ok file, set_names rest (set_files (<[file := []]> (files w)) w))
    | None =>
        (Raise (OSError EEXIST "No usable temporary file name found" None),
         set_names [] w)
    end.

(** The write of [data] reaching the file at [path] (the raw write under
    the buffer): it raises when the device has no room for it. *)
Definition file_write (path : string) (data : list byte) : M World unit :=
  fun w =>
    if (length data <=? disk_free w)%nat
    then (Ok tt, set_files (<[path := data]> (files w)) w)
    else (Raise (OSError ENOSPC "No space left on device" None), w).

(** [t.write(data)] on the freshly opened, buffered file at [path]: data
    that fits the buffer stays there and nothing can fail yet; larger
    data goes to the file at once.  Gives the bytes left in the buffer. *)
Definition buffered_write (path : string) (data : list byte)
    : M World (list byte) :=
  if (length data <=? buffer_size path)%nat then ret data
  else bind (file_write path data) (fun _ => ret []).

(** The close at the end of the [with] block: what is still buffered is
    written, and an error of that write is raised from the [with]. *)
Definition file_close (path : string) (pending : list byte) : M World unit :=
  match pending with
  | [] => ret tt
  | _ :: _ => file_write path pending
  end.

(** [os.path.exists] *)
Definition os_path_exists (path : string) : M World bool :=
  fun w => (Ok (bool_decide (is_Some (files w !! path))), w).

(** [os.remove] *)
Definition os_remove (path : string) : M World unit :=
  fun w =>
    match files w !! path with
    | None => (Raise (OSError ENOENT "No such file or directory" (Some path)), w)
    | Some _ =>
        if bool_decide (path ∈ immutable w)
        then (Raise (OSError EPERM "Operation not permitted" (Some path)), w)
        else (Ok tt, set_files (delete path (files w)) w)
    end.

(** [with open(path, 'r') as f: json.load(f)] *)
Definition open_json_load (path : string) : M World pyval :=
  fun w =>
    match files w !! path with
    | None => (Raise (OSError ENOENT "No such file or directory" (Some path)), w)
    | Some content => (json_load content, w)
    end.

(** *** The lock *)

(** [model_lock.acquire(blocking=False)] *)
Definition lock_acquire : M World bool :=
  fun w =>
    if locked w then (emit (EvAcquire false) ;;; ret false) w
    else (emit (EvAcquire true) ;;; ret true) (set_locked true w).

(** [model_lock.release()] *)
Definition lock_release : M World unit :=
  fun w =>
    if locked w then emit EvRelease (set_locked false w)
    else (Raise (RuntimeError "release unlocked lock"), w).

(** *** The collaborators *)

(** [whisper_model.transcribe(path, language=.., initial_prompt=.., temperature=..)] *)
Definition model_transcribe (path : string) (language prompt : option string)
    (temp : float) : M World pyval :=
  match whisper_model with
  | None => raise (AttributeError "'NoneType' object has no attribute 'transcribe'")
  | Some transcribe =>
      emit (EvTranscribe path language prompt temp) ;;;
      fun w => (transcribe (files w) path language prompt temp, w)
  end.

(** [subprocess.run(cmd, check=True, capture_output=True, text=True, env=env)] *)
Definition subprocess_run_check (cmd : list string) (env : gmap string string)
    : M World unit :=
  emit (EvSpawn cmd env) ;;;
  fun w =>
    match worker cmd env (files w) with
    | SpawnFailed e => (Raise e, w)
    | Exited files' returncode stdout stderr =>
        if returncode =? 0 then (Ok tt, set_files files' w)
        else (Raise (CalledProcessError returncode cmd stdout stderr),
              set_files files' w)
    end.

(** *** 3. Transcription functions *)

(** [if path and os.path.exists(path): os.remove(path)] *)
Definition remove_if_exists (p : option string) : M World unit :=
  match p with
  | Some path =>
      if PyStr.truthy p then
        there <- os_path_exists path ;;
        if there then os_remove path else ret tt
      else ret tt
  | None => ret tt
  end.

(** The one local of the fast lane is [temp_path]. *)
Definition run_transcription_fast_lane (audio_bytes : list byte)
    (language prompt : option string) (temp : float) : M World pyval :=
  with_locals (None : option string)
    (try_finally
       (t <- lift (NamedTemporaryFile EmptyString gettempdir) ;;
        pending <- lift (buffered_write t audio_bytes) ;;
        set_locals (Some t) ;;;
        lift (file_close t pending) ;;;
        let temp_path := t in
        lift (model_transcribe temp_path language prompt temp))
       (temp_path <- get_locals ;;
        lift (remove_if_exists temp_path))).

(** [if value: cmd.extend([flag, value])] *)
Definition extend_if (flag : string) (value : option string) : list string :=
  match value with
  | Some v => if PyStr.truthy value then [flag; v] else []
  | None => []
  end.

(** The command line built for the cold worker. *)
Definition slow_lane_cmd (t_audio : string) (language prompt : option string)
    (temp : float) : list string :=
  [VENV_PYTHON; WHISPER_SCRIPT; t_audio;
   "--model"; model_name;
   "--output_format"; "json";
   "--output_dir"; MODEL_CACHE_DIR;
   "--temperature"; float_str temp]
  ++ extend_if "--language" language
  ++ extend_if "--initial_prompt" prompt.

(** [sub_env]: [os.environ.copy()] with [WHISPER_CACHE_DIR] set. *)
Definition sub_env : gmap string string :=
  <["WHISPER_CACHE_DIR" := MODEL_CACHE_DIR]> environ.

(** [r_path] as computed from [t_audio] *)
Definition result_path (t_audio : string) : string :=
  let '(f_base, _) := PyStr.splitext (PyStr.basename t_audio) in
  PyStr.join MODEL_CACHE_DIR (f_base ++ ".json").

(** The locals of the slow lane are [(t_audio, r_path)]. *)
Definition run_transcription_slow_lane (audio_bytes : list byte)
    (language prompt : option string) (temp : float) : M World pyval :=
  with_locals ((None, None) : option string * option string)
    (try_finally
       (t <- lift (NamedTemporaryFile ".wav" MODEL_CACHE_DIR) ;;
        pending <- lift (buffered_write t audio_bytes) ;;
        set_locals (Some t, None) ;;;
        lift (file_close t pending) ;;;
        let t_audio := t in
        let cmd := slow_lane_cmd t_audio language prompt temp in
        lift (subprocess_run_check cmd sub_env) ;;;
        let r_path := result_path t_audio in
        set_locals (Some t_audio, Some r_path) ;;;
        data <- lift (open_json_load r_path) ;;
        ret data)
       (l <- get_locals ;;
        lift (remove_if_exists (fst l)) ;;;
        lift (remove_if_exists (snd l)))).

(** *** The endpoint *)

(** The form of [POST /v1/audio/transcriptions]; [file] holds what
    [await file.read()] gives. *)
Record Request := mkRequest {
  file : list byte;
  language : option string;
  prompt : option string;
  response_format : option string;
  temperature : float
}.

(** The same form with another [response_format]. *)
Definition with_format (fmt : option string) (req : Request) : Request :=
  mkRequest (file req) (language req) (prompt req) fmt (temperature req).

(** [response_format == "text"] *)
Definition is_text (response_format : option string) : bool :=
  match response_format with
  | Some f => String.eqb f "text"
  | None => false
  end.

(** The router: the [res] the endpoint obtains from one of the lanes. *)
Definition route (req : Request) : M World pyval :=
  let contents := file req in
  got <- lock_acquire ;;
  if got : bool then
    try_finally
      (run_transcription_fast_lane contents (language req) (prompt req)
         (temperature req))
      lock_release
  else
    run_transcription_slow_lane contents (language req) (prompt req)
      (temperature req).

(** [await file.close()] in the outer [finally] has no effect here. *)
Definition create_transcription (req : Request) : M World pyval :=
  match whisper_model with
  | None => raise (HTTPException 500 "Model not loaded.")
  | Some _ =>
      try_except
        (res <- route req ;;
         if is_text (response_format req)
         then of_result (getitem res "text")
         else ret res)
        (fun e => raise (HTTPException 500 (str_exn e)))
  end.

End Server.

(** ** A concrete deployment, for running the model *)

Module Demo.

Definition q : string := String PyStr.dquote EmptyString.

Definition bytes (s : string) : list byte := list_byte_of_string s.

Definition transcript : pyval :=
  VDict [("text", VStr " hello world"); ("language", VStr "en")].

Definition transcript_json : list byte :=
  bytes ("{" ++ q ++ "text" ++ q ++ ": " ++ q ++ " hello world" ++ q ++ ", "
             ++ q ++ "language" ++ q ++ ": " ++ q ++ "en" ++ q ++ "}").

Fixpoint eqb_bytes (a b : list byte) : bool :=
  match a, b with
  | [], [] => true
  | x :: a', y :: b' => Byte.eqb x y && eqb_bytes a' b'
  | _, _ => false
  end.

(** An engine that fails on the payload [boom], finds no text in
    [notext] and otherwise recognises the same sentence. *)
Definition engine (fs : gmap string (list byte)) (path : string)
    (language prompt : option string) (temp : string) : result pyval :=
  match fs !! path with
  | None => Raise (OtherException "RuntimeError" "Failed to load audio")
  | Some content =>
      if eqb_bytes content (bytes "boom")
      then Raise (OtherException "RuntimeError" "engine failure")
      else if eqb_bytes content (bytes "notext")
      then Ok (VDict [("language", VStr "en")])
      else Ok transcript
  end.

(** Where the command line tells the worker to write: the output
    directory of the command joined with the stem of its input. *)
Definition worker_output (cmd : list string) : string :=
  let audio := default EmptyString (cmd !! 2%nat) in
  let dir := default EmptyString (cmd !! 8%nat) in
  PyStr.join dir (fst (PyStr.splitext (PyStr.basename audio)) ++ ".json").

(** A worker that writes half a result and dies on the payload [boom],
    writes something that is not JSON on [garbage], nothing on [silent],
    and otherwise the transcript. *)
Definition cold_worker (cmd : list string) (env : gmap string string)
    (fs : gmap string (list byte)) : spawned :=
  let audio := default EmptyString (cmd !! 2%nat) in
  match fs !! audio with
  | None => Exited fs 2 EmptyString "No such file"
  | Some content =>
      if eqb_bytes content (bytes "boom")
      then Exited (<[worker_output cmd := bytes "{"]> fs) 1 EmptyString
                  "CUDA out of memory"
      else if eqb_bytes content (bytes "garbage")
      then Exited (<[worker_output cmd := bytes "not json"]> fs) 0 EmptyString EmptyString
      else if eqb_bytes content (bytes "silent")
      then Exited fs 0 EmptyString EmptyString
      else Exited (<[worker_output cmd := transcript_json]> fs) 0 EmptyString EmptyString
  end.

Definition parse (content : list byte) : result pyval :=
  if eqb_bytes content transcript_json then Ok transcript
  else Raise (OtherException "JSONDecodeError" "Expecting value: line 1 column 1 (char 0)").

(** A [float] is stood for by its printed form. *)
#[local] Instance deployment (loaded : bool) : Deployment := {|
  float := string;
  float_str := fun x => x;
  MODEL_CACHE_DIR := "/opt/ai/models/speech/whisper";
  model_name := "medium";
  gettempdir := "/tmp";
  environ := {[ "PATH" := "/usr/bin" ]};
  buffer_size := fun _ => (8 * 1024)%nat;
  signal_repr := fun n => if n =? 9 then Some "<Signals.SIGKILL: 9>" else None;
  whisper_model := if loaded then Some engine else None;
  worker := cold_worker;
  json_load := parse
|}.

Definition hot : Deployment := deployment true.
Definition cold : Deployment := deployment false.

Definition world (held : bool) (free : nat) (stuck : gset string) : World (D:=hot) :=
  mkWorld (D:=hot) ∅ stuck free ["ab12cd_z"; "k3k3k3k3"] held [].

Definition request (payload : string) (language prompt response_format : option string)
    : Request (D:=hot) :=
  mkRequest (D:=hot) (bytes payload) language prompt response_format "0.0".

Definition fast_tmp : string := "/tmp/tmpab12cd_z".
Definition slow_wav : string := "/opt/ai/models/speech/whisper/tmpab12cd_z.wav".
Definition slow_json : string := "/opt/ai/models/speech/whisper/tmpab12cd_z.json".

End Demo.

(** ** 1. Global config and logging, 2. model loading

    What the module computes once, when it is imported, from [os.environ].
    [os.makedirs(MODEL_CACHE_DIR, exist_ok=True)] is left out: the model
    of the filesystem has files only. *)

Module Config.

(** [c.lower()] on an ASCII letter; other bytes are left alone.  The only
    characters outside ASCII whose [lower()] holds an ASCII letter give
    [i] and [k]. *)
Definition lower_char (c : ascii) : ascii :=
  let n := N_of_ascii c in
  if ((65 <=? n) && (n <=? 90))%N then ascii_of_N (n + 32) else c.

(** [s.lower()] *)
Fixpoint lower (s : string) : string :=
  match s with
  | EmptyString => EmptyString
  | String c r => String (lower_char c) (lower r)
  end.

(** [os.environ.get(key, default)] *)
Definition environ_get (environ : gmap string string) (key default : string)
    : string :=
  match environ !! key with
  | Some v => v
  | None => default
  end.

Definition XDG_CACHE_HOME (environ : gmap string string) : string :=
  environ_get environ "XDG_CACHE_HOME" "/opt/ai/models/speech".

Definition MODEL_CACHE_DIR (environ : gmap string string) : string :=
  PyStr.join (XDG_CACHE_HOME environ) "whisper".

(** [os.environ.get("DEBUG", "").lower() == "true"] *)
Definition DEBUG_MODE (environ : gmap string string) : bool :=
  String.eqb (lower (environ_get environ "DEBUG" EmptyString)) "true".

Definition model_name (environ : gmap string string) : string :=
  environ_get environ "WHISPER_MODEL" "medium".

End Config.

Section Startup.
Context `{D : Deployment}.

(** [log_debug(message)], on the lines printed so far. *)
Definition log_debug (message : string) (stdout : list string) : list string :=
  if Config.DEBUG_MODE environ then (stdout ++ [message])%list else stdout.

(** Section 2 of the module: [whisper.load_model] is tried once; when it
    raises, the error is printed, debug mode or not, and [whisper_model]
    is [None].  Gives [whisper_model] and the lines printed. *)
Definition load_whisper_model {Model : Type}
    (load_model : string -> string -> result Model) (stdout : list string)
    : option Model * list string :=
  let name := Config.model_name environ in
  let stdout1 :=
    log_debug ("Loading HOT WORKER model '" ++ name ++ "' into memory...") stdout in
  match load_model name (Config.MODEL_CACHE_DIR environ) with
  | Ok m => (Some m, log_debug ("Model '" ++ name ++ "' loaded successfully.") stdout1)
  | Raise e =>
      let line := "CRITICAL ERROR: Could not load model: " ++ str_exn e in
      (None, (stdout1 ++ [line])%list)
  end.

(** The deployment the module's top level sets up over the collaborators
    of [D]: the configuration is read from [os.environ] and
    [whisper_model] is what loading gave. *)
Definition started
    (load_model : string -> string ->
       result (gmap string (list byte) -> string -> option string ->
               option string -> float -> result pyval))
    : Deployment := {|
  float := float;
  float_str := float_str;
  MODEL_CACHE_DIR := Config.MODEL_CACHE_DIR environ;
  model_name := Config.model_name environ;
  gettempdir := gettempdir;
  environ := environ;
  buffer_size := buffer_size;
  signal_repr := signal_repr;
  whisper_model := fst (load_whisper_model load_model []);
  worker := worker;
  json_load := json_load
|}.

End Startup.

Module MoreDemo.

(** A loader that finds no weights. *)
Definition failing_loader (name download_root : string)
    : result (gmap string (list byte) -> string -> option string ->
              option string -> string -> result pyval) :=
  Raise (OtherException "RuntimeError" ("Model " ++ name ++ " not found")).

(** The demo deployment after a start-up in which loading failed. *)
Definition broken : Deployment := started (D := Demo.hot) failing_loader.

(** The demo deployment with a variation of its worker and JSON parser. *)
Definition variant
    (w : list string -> gmap string string -> gmap string (list byte) -> spawned)
    (parse : list byte -> result pyval) : Deployment := {|
  float := string;
  float_str := fun x => x;
  MODEL_CACHE_DIR := "/opt/ai/models/speech/whisper";
  model_name := "medium";
  gettempdir := "/tmp";
  environ := {[ "PATH" := "/usr/bin" ]};
  buffer_size := fun _ => (8 * 1024)%nat;
  signal_repr := fun n => if n =? 9 then Some "<Signals.SIGKILL: 9>" else None;
  whisper_model := Some Demo.engine;
  worker := w;
  json_load := parse
|}.

(** The interpreter of the worker is not installed. *)
Definition no_worker : Deployment :=
  variant (fun _ _ _ =>
             SpawnFailed (OSError ENOENT "No such file or directory"
                                  (Some VENV_PYTHON)))
          Demo.parse.

(** The worker's output parses as a JSON array. *)
Definition listing : Deployment :=
  variant Demo.cold_worker (fun _ => Ok (VList [VStr "a"])).


(** A world with one file of somebody else's in it. *)
Definition world_with_notes `{D : Deployment} (held : bool) : World :=
  mkWorld {[ "/tmp/notes" := Demo.bytes "n" ]} ∅ 100 ["ab12cd_z"; "k3k3k3k3"]
          held [].

End MoreDemo.

(** * Properties *)

(** ** Steps that keep a relation between the state before and after *)

Section Preservation.
Context {S : Type} (R : S -> S -> Prop) `{!PreOrder R}.

Lemma preserves_ret {A} (a : A) : preserves R (ret a).
Proof. intros s. reflexivity. Qed.

Lemma preserves_raise {A} (e : exn) : preserves R (raise (A:=A) e).
Proof. intros s. reflexivity. Qed.

Lemma preserves_of_result {A} (r : result A) : preserves R (of_result r).
Proof. intros s. reflexivity. Qed.

Lemma preserves_bind {A B} (c : M S A) (k : A -> M S B) :
  preserves R c -> (forall a, preserves R (k a)) -> preserves R (bind c k).
Proof.
  intros Hc Hk s. unfold bind. specialize (Hc s).
  destruct (c s) as [[a|e] s1]; simpl in *; [|done].
  etransitivity; [exact Hc | apply Hk].
Qed.

Lemma preserves_try_finally {A} (body : M S A) (fin : M S unit) :
  preserves R body -> preserves R fin -> preserves R (try_finally body fin).
Proof.
  intros Hb Hf s. unfold try_finally. specialize (Hb s).
  destruct (body s) as [r s1]; simpl in *. specialize (Hf s1).
  destruct (fin s1) as [[u|e] s2]; simpl in *; etransitivity; eauto.
Qed.

Lemma preserves_try_except {A} (body : M S A) (handler : exn -> M S A) :
  preserves R body -> (forall e, preserves R (handler e)) ->
  preserves R (try_except body handler).
Proof.
  intros Hb Hh s. unfold try_except. specialize (Hb s).
  destruct (body s) as [[a|e] s1]; simpl in *; [done|].
  etransitivity; [exact Hb | apply Hh].
Qed.

End Preservation.

(** The same, for a body that carries locals next to the world. *)
Section PreservationLocals.
Context {W L : Type} (R : W -> W -> Prop) `{!PreOrder R}.

#[global] Instance on_world_preorder : PreOrder (on_world (L:=L) R).
Proof.
  split.
  - intros s. unfold on_world. reflexivity.
  - intros a b c Hab Hbc. unfold on_world in *. by etransitivity.
Qed.

Lemma preserves_lift {A} (c : M W A) :
  preserves R c -> preserves (on_world R) (lift (L:=L) c).
Proof.
  intros Hc [w l]. unfold lift, on_world. simpl. specialize (Hc w).
  by destruct (c w).
Qed.

Lemma preserves_get_locals : preserves (on_world R) (get_locals (W:=W) (L:=L)).
Proof. intros s. unfold on_world. simpl. reflexivity. Qed.

Lemma preserves_set_locals (l : L) : preserves (on_world R) (set_locals (W:=W) l).
Proof. intros s. unfold on_world. simpl. reflexivity. Qed.

Lemma preserves_with_locals {A} (init : L) (c : M (W * L) A) :
  preserves (on_world R) c -> preserves R (with_locals init c).
Proof.
  intros Hc w. unfold with_locals. specialize (Hc (w, init)).
  unfold on_world in Hc. by destruct (c (w, init)).
Qed.

End PreservationLocals.

Section Kept.
Context `{D : Deployment} (keep : event -> bool).

#[global] Instance kept_preorder : PreOrder (kept keep).
Proof.
  split.
  - by intros w.
  - intros a b c [H1 H2] [H3 H4]. split; congruence.
Qed.

Lemma kept_emit e : keep e = false -> preserves (kept keep) (emit e).
Proof.
  intros He w. split; [done|]. simpl.
  rewrite List.filter_app. simpl. rewrite He. by rewrite app_nil_r.
Qed.

Lemma kept_NamedTemporaryFile suffix dir :
  preserves (kept keep) (NamedTemporaryFile suffix dir).
Proof.
  intros w. unfold NamedTemporaryFile.
  by destruct (mkstemp_inner _ _ _ _ _) as [[file rest]|].
Qed.

Lemma kept_file_write path data : preserves (kept keep) (file_write path data).
Proof. intros w. unfold file_write. by destruct (_ <=? _)%nat. Qed.

Lemma kept_buffered_write path data :
  preserves (kept keep) (buffered_write path data).
Proof.
  unfold buffered_write. destruct (_ <=? _)%nat; [apply preserves_ret, _|].
  apply preserves_bind; [apply _ | apply kept_file_write |].
  intros _. apply preserves_ret, _.
Qed.

Lemma kept_file_close path pending :
  preserves (kept keep) (file_close path pending).
Proof.
  unfold file_close. destruct pending; [apply preserves_ret, _|].
  apply kept_file_write.
Qed.

Lemma kept_os_path_exists path : preserves (kept keep) (os_path_exists path).
Proof. by intros w. Qed.

Lemma kept_os_remove path : preserves (kept keep) (os_remove path).
Proof.
  intros w. unfold os_remove. destruct (files w !! path); [|done].
  by destruct (bool_decide _).
Qed.

Lemma kept_open_json_load path : preserves (kept keep) (open_json_load path).
Proof. intros w. unfold open_json_load. by destruct (files w !! path). Qed.

Lemma kept_remove_if_exists p : preserves (kept keep) (remove_if_exists p).
Proof.
  unfold remove_if_exists. destruct p as [path|]; [|apply preserves_ret, _].
  destruct (PyStr.truthy _); [|apply preserves_ret, _].
  apply preserves_bind; [apply _ | apply kept_os_path_exists |].
  intros [|]; [apply kept_os_remove | apply preserves_ret, _].
Qed.

Lemma kept_model_transcribe path language prompt temp :
  keep (EvTranscribe path language prompt temp) = false ->
  preserves (kept keep) (model_transcribe path language prompt temp).
Proof.
  intros He. unfold model_transcribe.
  destruct whisper_model; [|apply preserves_raise, _].
  apply preserves_bind; [apply _ | by apply kept_emit |].
  by intros _ w.
Qed.

Lemma kept_subprocess_run_check cmd env :
  keep (EvSpawn cmd env) = false ->
  preserves (kept keep) (subprocess_run_check cmd env).
Proof.
  intros He. unfold subprocess_run_check.
  apply preserves_bind; [apply _ | by apply kept_emit |].
  intros _ w. destruct (worker cmd env (files w)); [done|].
  by destruct (_ =? _).
Qed.

End Kept.

(** ** The lanes and the lock *)

Ltac preserve_step :=
  lazymatch goal with
  | |- PreOrder _ => apply _
  | |- forall _, _ => intros ?
  | |- preserves _ (with_locals _ _) => apply preserves_with_locals
  | |- preserves _ (try_finally _ _) => apply preserves_try_finally
  | |- preserves _ (bind _ _) => apply preserves_bind
  | |- preserves _ (lift _) => apply preserves_lift
  | |- preserves _ get_locals => apply preserves_get_locals
  | |- preserves _ (set_locals _) => apply preserves_set_locals
  | |- preserves _ (ret _) => apply preserves_ret
  | |- preserves _ (NamedTemporaryFile _ _) => apply kept_NamedTemporaryFile
  | |- preserves _ (file_write _ _) => apply kept_file_write
  | |- preserves _ (buffered_write _ _) => apply kept_buffered_write
  | |- preserves _ (file_close _ _) => apply kept_file_close
  | |- preserves _ (open_json_load _) => apply kept_open_json_load
  | |- preserves _ (remove_if_exists _) => apply kept_remove_if_exists
  | |- preserves _ (model_transcribe _ _ _ _) =>
      apply kept_model_transcribe; reflexivity
  | |- preserves _ (subprocess_run_check _ _) =>
      apply kept_subprocess_run_check; reflexivity
  end.

Section Lanes.
Context `{D : Deployment}.

(** The fast lane leaves the lock alone and calls nothing but the engine. *)
Lemma fast_lane_kept a l p t :
  preserves (kept (fun e => negb (is_transcribe e)))
            (run_transcription_fast_lane a l p t).
Proof. unfold run_transcription_fast_lane. repeat preserve_step. Qed.


End Lanes.

Section Dispatcher.
Context `{D : Deployment}.


(** What the endpoint leaves of the world is what the router leaves. *)
Lemma create_transcription_world req w engine :
  whisper_model = Some engine ->
  snd (create_transcription req w) = snd (route req w).
Proof.
  intros Hm. unfold create_transcription. rewrite Hm.
  unfold try_except, bind. destruct (route req w) as [[res|e] w1]; [|done].
  simpl. destruct (is_text _); [|done].
  unfold of_result. by destruct (getitem res "text").
Qed.

Lemma route_free req w :
  locked w = false ->
  route req w =
    try_finally
      (run_transcription_fast_lane (file req) (language req) (prompt req)
         (temperature req))
      lock_release (snd (lock_acquire w)).
Proof. intros Hl. unfold route, bind, lock_acquire. by rewrite Hl. Qed.

Lemma route_held req w :
  locked w = true ->
  route req w =
    run_transcription_slow_lane (file req) (language req) (prompt req)
      (temperature req) (snd (lock_acquire w)).
Proof. intros Hl. unfold route, bind, lock_acquire. by rewrite Hl. Qed.


(** C2. With [whisper_model] null the endpoint raises the model-not-loaded
    error at once and leaves the world as it found it: the lock is not
    tried, nothing is spawned, no file and no temp name is used. *)
Theorem C2_engine_absent_fails_first req w :
  whisper_model = None ->
  create_transcription req w = (Raise (HTTPException 500 "Model not loaded."), w).
Proof. intros Hm. unfold create_transcription. by rewrite Hm. Qed.

End Dispatcher.

(** ** Staging and cleanup *)

Section Staging.
Context `{D : Deployment}.

Lemma join_nonempty a b : b <> EmptyString -> PyStr.join a b <> EmptyString.
Proof.
  intros Hb. unfold PyStr.join.
  destruct (PyStr.startswith _ b); [done|].
  destruct (_ || _).
  - destruct a; [done|]. by simpl.
  - destruct a; by simpl.
Qed.

Lemma truthy_nonempty s : s <> EmptyString -> PyStr.truthy (Some s) = true.
Proof. by destruct s. Qed.

(** What [_mkstemp_inner] picks: a candidate, after the taken ones, whose
    path is not in use. *)
Lemma mkstemp_inner_spec dir pre suf cands fs file rest :
  mkstemp_inner dir pre suf cands fs = Some (file, rest) ->
  exists skipped name,
    cands = (skipped ++ name :: rest)%list /\
    file = PyStr.join dir (pre ++ name ++ suf) /\
    fs !! file = None.
Proof.
  revert file rest. induction cands as [|c cands IH]; intros file rest; [done|].
  simpl. destruct (fs !! PyStr.join dir (pre ++ c ++ suf)) eqn:Hc.
  - intros H. destruct (IH _ _ H) as (sk & nm & -> & -> & Hf).
    by exists (c :: sk), nm.
  - intros [= <- <-]. by exists [], c.
Qed.

Lemma mkstemp_inner_truthy dir suf cands fs file rest :
  mkstemp_inner dir "tmp" suf cands fs = Some (file, rest) ->
  PyStr.truthy (Some file) = true.
Proof.
  intros H. destruct (mkstemp_inner_spec _ _ _ _ _ _ _ H) as (sk & nm & _ & -> & _).
  apply truthy_nonempty, join_nonempty. by simpl.
Qed.

Lemma set_files_same w : set_files (files w) w = w.
Proof. by destruct w. Qed.

(** The three ways [if p and os.path.exists(p): os.remove(p)] can go. *)
Lemma remove_if_exists_gone p w :
  files w !! p = None -> remove_if_exists (Some p) w = (Ok tt, w).
Proof.
  intros Hp. unfold remove_if_exists. destruct (PyStr.truthy _); [|done].
  unfold bind, os_path_exists. rewrite Hp.
  rewrite bool_decide_eq_false_2; [done|]. by intros [? ?].
Qed.

Lemma remove_if_exists_removed p w :
  PyStr.truthy (Some p) = true -> p ∉ immutable w ->
  remove_if_exists (Some p) w = (Ok tt, set_files (delete p (files w)) w).
Proof.
  intros Ht Hp. destruct (files w !! p) as [c|] eqn:Hf.
  - unfold remove_if_exists. rewrite Ht. unfold bind, os_path_exists.
    rewrite Hf. rewrite bool_decide_eq_true_2; [|by eexists].
    unfold os_remove. rewrite Hf. by rewrite bool_decide_eq_false_2.
  - rewrite remove_if_exists_gone; [|done].
    rewrite delete_id; [|done]. by rewrite set_files_same.
Qed.

Lemma remove_if_exists_refused p w :
  PyStr.truthy (Some p) = true -> p ∈ immutable w -> is_Some (files w !! p) ->
  remove_if_exists (Some p) w =
    (Raise (OSError EPERM "Operation not permitted" (Some p)), w).
Proof.
  intros Ht Hp [c Hf]. unfold remove_if_exists. rewrite Ht.
  unfold bind, os_path_exists. rewrite Hf.
  rewrite bool_decide_eq_true_2; [|by eexists].
  unfold os_remove. rewrite Hf. by rewrite bool_decide_eq_true_2.
Qed.

#[local] Arguments remove_if_exists : simpl never.

(** The fast lane once the audio is staged at [file]: the engine runs on
    the staged file, then the cleanup decides what comes back. *)
Lemma fast_lane_staged a l p t w file rest engine :
  whisper_model = Some engine ->
  mkstemp_inner gettempdir "tmp" EmptyString (names w) (files w) = Some (file, rest) ->
  (length a <= disk_free w)%nat ->
  let w2 := mkWorld (<[file := a]> (files w)) (immutable w) (disk_free w) rest
                    (locked w) (trace w ++ [EvTranscribe file l p t]) in
  run_transcription_fast_lane a l p t w =
    try_finally (of_result (engine (files w2) file l p t))
                (remove_if_exists (Some file)) w2.
Proof.
  intros Hm Hs Hlen w2.
  unfold run_transcription_fast_lane, with_locals, try_finally, lift,
    NamedTemporaryFile, buffered_write, file_close, file_write,
    model_transcribe, set_locals, get_locals, of_result, emit, ret, bind.
  simpl. rewrite Hs. simpl.
  apply Nat.leb_le in Hlen.
  destruct (length a <=? buffer_size file)%nat; simpl;
    [destruct a as [|b a']; simpl in *|];
    rewrite ?Hlen; simpl; rewrite Hm; simpl;
    rewrite ?insert_insert_eq; fold w2;
    match goal with |- context [?c w2] => destruct (c w2) as [[u|e] w3] end; done.
Qed.

(** When [t.write] itself raises (the payload is larger than the buffer
    and does not fit on the device), [temp_path] is still [None]: the
    cleanup does nothing and the file that was just created stays. *)
Lemma fast_lane_write_raises a l p t w file rest :
  mkstemp_inner gettempdir "tmp" EmptyString (names w) (files w) = Some (file, rest) ->
  (buffer_size file < length a)%nat ->
  (disk_free w < length a)%nat ->
  run_transcription_fast_lane a l p t w =
    (Raise (OSError ENOSPC "No space left on device" None),
     set_names rest (set_files (<[file := []]> (files w)) w)).
Proof.
  intros Hs Hbuf Hlen.
  unfold run_transcription_fast_lane, with_locals, try_finally, lift,
    NamedTemporaryFile, buffered_write, file_write, bind.
  simpl. rewrite Hs. simpl.
  apply Nat.leb_gt in Hbuf, Hlen. rewrite Hbuf. simpl. by rewrite Hlen.
Qed.

(** When the payload was buffered and the error comes at the close that
    ends the [with] block, [temp_path] is bound and the cleanup has the
    path to work on. *)
Lemma fast_lane_close_raises a l p t w file rest :
  mkstemp_inner gettempdir "tmp" EmptyString (names w) (files w) = Some (file, rest) ->
  (length a <= buffer_size file)%nat ->
  (disk_free w < length a)%nat ->
  run_transcription_fast_lane a l p t w =
    try_finally (raise (OSError ENOSPC "No space left on device" None))
                (remove_if_exists (Some file))
                (set_names rest (set_files (<[file := []]> (files w)) w)).
Proof.
  intros Hs Hbuf Hlen.
  unfold run_transcription_fast_lane, with_locals, try_finally, lift,
    NamedTemporaryFile, buffered_write, file_close, file_write,
    set_locals, get_locals, raise, ret, bind.
  simpl. rewrite Hs. simpl.
  apply Nat.leb_le in Hbuf. rewrite Hbuf. simpl.
  apply Nat.leb_gt in Hlen.
  destruct a as [|b a']; [done|].
  lazy beta iota zeta.
  change (disk_free (set_names rest (set_files (<[file:=[]]> (files w)) w)))
    with (disk_free w).
  rewrite Hlen. simpl.
  match goal with
  | |- context [remove_if_exists (Some file) ?w1] =>
      destruct (remove_if_exists (Some file) w1) as [[u|e] w3]
  end; done.
Qed.

(** The slow lane once the audio is staged at [file]: the worker runs on
    the staged file; what it leaves decides the outcome and how much of
    the cleanup has a path to work on. *)
Lemma slow_lane_staged a l p t w file rest :
  mkstemp_inner MODEL_CACHE_DIR "tmp" ".wav" (names w) (files w) = Some (file, rest) ->
  (length a <= disk_free w)%nat ->
  let cmd := slow_lane_cmd file l p t in
  let w2 := mkWorld (<[file := a]> (files w)) (immutable w) (disk_free w) rest
                    (locked w) (trace w ++ [EvSpawn cmd sub_env]) in
  run_transcription_slow_lane a l p t w =
    match worker cmd sub_env (files w2) with
    | SpawnFailed e =>
        try_finally (raise e) (remove_if_exists (Some file)) w2
    | Exited files' returncode stdout stderr =>
        if returncode =? 0 then
          try_finally (open_json_load (result_path file))
            (remove_if_exists (Some file) ;;;
             remove_if_exists (Some (result_path file)))
            (set_files files' w2)
        else
          try_finally (raise (CalledProcessError returncode cmd stdout stderr))
            (remove_if_exists (Some file)) (set_files files' w2)
    end.
Proof.
  intros Hs Hlen cmd w2.
  unfold run_transcription_slow_lane, with_locals, try_finally, lift,
    NamedTemporaryFile, buffered_write, file_close, file_write,
    subprocess_run_check, set_locals, get_locals, emit, raise, ret, bind.
  simpl. rewrite Hs. simpl.
  apply Nat.leb_le in Hlen.
  assert (Hstaged : <[file := a]> (<[file := []]> (files w)) = <[file := a]> (files w))
    by apply insert_insert_eq.
  destruct (length a <=? buffer_size file)%nat; simpl;
    [destruct a as [|b a']; simpl in *|];
    rewrite ?Hlen; simpl; rewrite ?Hstaged; fold cmd; fold w2.
  all: destruct (worker cmd sub_env _)
         as [e|files' returncode stdout stderr]; simpl.
  all: try destruct (returncode =? 0); simpl.
  all: try unfold open_json_load; simpl.
  all: try destruct (files' !! result_path file) as [content|]; simpl.
  all: try destruct (json_load content) as [data|e]; simpl.
  all: repeat match goal with
         | |- context [remove_if_exists ?q ?w0] =>
             destruct (remove_if_exists q w0) as [[?|?] ?]; simpl
         end; done.
Qed.

End Staging.

(** ** Paths: the stem of the staged input names the output *)

Section Paths.

Lemma rfind_lower c s : -1 <= PyStr.rfind c s.
Proof.
  induction s as [|a s IH]; simpl; [lia|].
  destruct (0 <=? PyStr.rfind c s) eqn:E; [apply Z.leb_le in E; lia|].
  destruct (Ascii.eqb a c); lia.
Qed.

Lemma rfind_absent c s : PyStr.has c s = false -> PyStr.rfind c s = -1.
Proof.
  induction s as [|a s IH]; simpl; [done|].
  intros [Ha Hs]%orb_false_iff. rewrite (IH Hs), Ha. by simpl.
Qed.

(** The last [c] of [x ++ c :: b], when [b] has none, is at [len(x)]. *)
Lemma rfind_app_last c x b :
  PyStr.has c b = false ->
  PyStr.rfind c (x ++ String c b) = Z.of_nat (String.length x).
Proof.
  intros Hb. induction x as [|a x IH]; simpl.
  - rewrite (rfind_absent _ _ Hb). simpl. by rewrite Ascii.eqb_refl.
  - rewrite IH. destruct (0 <=? Z.of_nat (String.length x)) eqn:E; [lia|].
    apply Z.leb_gt in E. lia.
Qed.

Lemma sdrop_app x b : PyStr.sdrop (String.length x) (x ++ b) = b.
Proof. induction x as [|a x IH]; simpl; [by destruct b|done]. Qed.

Lemma stake_app x b : PyStr.stake (String.length x) (x ++ b) = x.
Proof. induction x as [|a x IH]; simpl; [done|by rewrite IH]. Qed.

Lemma has_app c x y : PyStr.has c (x ++ y) = PyStr.has c x || PyStr.has c y.
Proof. induction x as [|a x IH]; simpl; [done|]. by rewrite IH, orb_assoc. Qed.

Lemma append_cons a (x y : string) : String a x ++ y = String a (x ++ y).
Proof. reflexivity. Qed.

Lemma app_assoc_string (x y z : string) : (x ++ y) ++ z = x ++ (y ++ z).
Proof.
  induction x as [|a x IH]; [done|]. by rewrite !append_cons, IH.
Qed.

Lemma length_append_string (x y : string) :
  String.length (x ++ y) = (String.length x + String.length y)%nat.
Proof.
  induction x as [|a x IH]; [done|]. rewrite append_cons. simpl. by rewrite IH.
Qed.

Lemma endswith_split c a :
  PyStr.endswith c a = true -> exists a', a = a' ++ String c EmptyString.
Proof.
  induction a as [|h a IH]; [done|]. simpl. destruct a as [|h' a].
  - intros ->%Ascii.eqb_eq. by exists EmptyString.
  - intros [a' Ha]%IH. exists (String h a'). simpl. by rewrite Ha.
Qed.

Lemma basename_no_sep b : PyStr.has PyStr.sep b = false -> PyStr.basename b = b.
Proof. intros Hb. unfold PyStr.basename. by rewrite (rfind_absent _ _ Hb). Qed.

Lemma basename_after_sep x b :
  PyStr.has PyStr.sep b = false ->
  PyStr.basename (x ++ String PyStr.sep b) = b.
Proof.
  intros Hb. unfold PyStr.basename. rewrite (rfind_app_last _ _ _ Hb).
  replace (Z.to_nat (Z.of_nat (String.length x) + 1))
    with (String.length (x ++ String PyStr.sep EmptyString)).
  - replace (x ++ String PyStr.sep b)
      with ((x ++ String PyStr.sep EmptyString) ++ b)
      by (by rewrite app_assoc_string).
    apply sdrop_app.
  - rewrite length_append_string. simpl. lia.
Qed.

(** [basename(join(dir, name)) = name] for a [name] without separator. *)
Lemma basename_join dir name :
  PyStr.has PyStr.sep name = false ->
  PyStr.basename (PyStr.join dir name) = name.
Proof.
  intros Hn. unfold PyStr.join.
  assert (Hs : PyStr.startswith PyStr.sep name = false).
  { destruct name as [|h name]; [done|]. simpl in *.
    by apply orb_false_iff in Hn as [-> _]. }
  rewrite Hs. destruct (String.eqb dir EmptyString) eqn:Hd; simpl.
  - apply String.eqb_eq in Hd as ->. by apply basename_no_sep.
  - destruct (PyStr.endswith PyStr.sep dir) eqn:He.
    + destruct (endswith_split _ _ He) as [a' ->].
      rewrite app_assoc_string. simpl. by apply basename_after_sep.
    + change (dir ++ "/" ++ name) with (dir ++ String PyStr.sep name).
      by apply basename_after_sep.
Qed.

(** [splitext(stem + ext)] for a [stem] without dot or separator that
    does not start with a dot, and an [ext] that is a dot and letters. *)
Lemma splitext_stem h stem ext :
  PyStr.has PyStr.sep (String h stem ++ String PyStr.extsep ext) = false ->
  PyStr.has PyStr.extsep ext = false ->
  Ascii.eqb h PyStr.extsep = false ->
  PyStr.splitext (String h stem ++ String PyStr.extsep ext) =
    (String h stem, String PyStr.extsep ext).
Proof.
  intros Hsep Hext Hh. unfold PyStr.splitext.
  rewrite (rfind_absent _ _ Hsep), (rfind_app_last _ _ _ Hext).
  replace (Z.to_nat (-1 + 1)) with 0%nat by lia.
  replace (Z.to_nat (Z.of_nat (String.length (String h stem)) - (-1 + 1)))
    with (String.length (String h stem)) by lia.
  replace (Z.to_nat (Z.of_nat (String.length (String h stem))))
    with (String.length (String h stem)) by lia.
  rewrite stake_app, sdrop_app.
  assert (Hlt : (-1 <? Z.of_nat (String.length (String h stem))) = true)
    by (apply Z.ltb_lt; lia).
  rewrite Hlt. simpl. by rewrite Hh.
Qed.

Lemma candidate_has c name :
  PyStr.has c characters = false -> candidate name = true ->
  PyStr.has c name = false.
Proof.
  intros Hc. induction name as [|h name IH]; [done|]. intros Hcand.
  change (candidate (String h name))
    with (PyStr.has h characters && candidate name) in Hcand.
  apply andb_true_iff in Hcand as [Hh Hn].
  change (PyStr.has c (String h name))
    with (Ascii.eqb h c || PyStr.has c name).
  rewrite (IH Hn), orb_false_r.
  destruct (Ascii.eqb h c) eqn:E; [|done].
  apply Ascii.eqb_eq in E. subst h. congruence.
Qed.

(** A temp file name: [tmp], a name of the generator, the suffix. *)
Lemma temp_name_no_sep name suf :
  candidate name = true -> PyStr.has PyStr.sep suf = false ->
  PyStr.has PyStr.sep ("tmp" ++ name ++ suf) = false.
Proof.
  intros Hn Hs.
  rewrite !has_app, Hs, (candidate_has PyStr.sep _ eq_refl Hn). done.
Qed.

Lemma temp_name_no_dot name :
  candidate name = true -> PyStr.has PyStr.extsep ("tmp" ++ name) = false.
Proof.
  intros Hn. rewrite has_app, (candidate_has PyStr.extsep _ eq_refl Hn). done.
Qed.

(** The stem of a staged [.wav] is the whole name before the suffix. *)
Lemma splitext_staged name :
  candidate name = true ->
  PyStr.splitext ("tmp" ++ name ++ ".wav") = ("tmp" ++ name, ".wav").
Proof.
  intros Hn.
  change ("tmp" ++ name ++ ".wav")
    with (String "t" ("mp" ++ name ++ String PyStr.extsep "wav")).
  replace (String "t" ("mp" ++ name ++ String PyStr.extsep "wav"))
    with (String "t" ("mp" ++ name) ++ String PyStr.extsep "wav")
    by (by rewrite append_cons, app_assoc_string).
  rewrite splitext_stem; [done| |done|done].
  rewrite has_app. change (String "t" ("mp" ++ name)) with ("tmp" ++ name).
  rewrite has_app, (candidate_has PyStr.sep _ eq_refl Hn). done.
Qed.

End Paths.

(** ** Outcomes of the two lanes *)

Section Outcomes.
Context `{D : Deployment}.

#[local] Arguments remove_if_exists : simpl never.

Lemma append_nonempty_r (x y : string) : y <> EmptyString -> x ++ y <> EmptyString.
Proof. intros Hy. destruct x; [done|]. by rewrite append_cons. Qed.

Lemma result_path_truthy t_audio : PyStr.truthy (Some (result_path t_audio)) = true.
Proof.
  unfold result_path. destruct (PyStr.splitext _) as [f_base ext].
  apply truthy_nonempty, join_nonempty, append_nonempty_r. done.
Qed.

(** The output path for an input staged under a name of the generator. *)
Lemma result_path_staged dir name :
  candidate name = true ->
  result_path (PyStr.join dir ("tmp" ++ name ++ ".wav")) =
    PyStr.join MODEL_CACHE_DIR ("tmp" ++ name ++ ".json").
Proof.
  intros Hn. unfold result_path.
  rewrite basename_join by (by apply temp_name_no_sep).
  rewrite (splitext_staged _ Hn). by rewrite app_assoc_string.
Qed.

(** The cleanup makes no call to the outside. *)
Lemma remove_if_exists_trace p w :
  trace (snd (remove_if_exists p w)) = trace w.
Proof.
  destruct (kept_remove_if_exists (fun _ => true) p w) as [_ H].
  revert H. generalize (trace (snd (remove_if_exists p w))) (trace w).
  intros k k'. assert (Hid : forall m : list event, List.filter (fun _ => true) m = m).
  { induction m as [|e m IH]; [done|]. simpl. by rewrite IH. }
  by rewrite !Hid.
Qed.

(** The fast lane, staged, when the temp file can be removed: the
    engine's answer comes back and the files are as before the call. *)
Lemma fast_lane_removes_temp_file a l p t w file rest engine :
  whisper_model = Some engine ->
  mkstemp_inner gettempdir "tmp" EmptyString (names w) (files w) = Some (file, rest) ->
  (length a <= disk_free w)%nat ->
  file ∉ immutable w ->
  fst (run_transcription_fast_lane a l p t w) =
    engine (<[file := a]> (files w)) file l p t /\
  files (snd (run_transcription_fast_lane a l p t w)) = files w.
Proof.
  intros Hm Hs Hlen Him.
  rewrite (fast_lane_staged _ _ _ _ _ _ _ _ Hm Hs Hlen).
  unfold try_finally, of_result.
  rewrite remove_if_exists_removed;
    [|by eapply mkstemp_inner_truthy|done].
  simpl. split; [done|].
  rewrite delete_insert_eq. apply delete_id.
  by destruct (mkstemp_inner_spec _ _ _ _ _ _ _ Hs) as (? & ? & _ & _ & ?).
Qed.


(** C5 (amended). When the request goes to the slow lane, its input was
    staged and the worker exits non-zero, the caller receives the
    processing failure (status 500) whose message is the [str] of the
    [CalledProcessError]: it names the command line and the exit status.
    The captured stderr travels on the exception but is not part of the
    message, which is the same whatever the worker wrote there.  The
    input artifact is removed, provided [os.remove] is not refused. *)
Theorem C5_worker_failure_response req w engine t_audio rest files'
    returncode stdout stderr :
  whisper_model = Some engine ->
  locked w = true ->
  mkstemp_inner MODEL_CACHE_DIR "tmp" ".wav" (names w) (files w) = Some (t_audio, rest) ->
  (length (file req) <= disk_free w)%nat ->
  let cmd := slow_lane_cmd t_audio (language req) (prompt req) (temperature req) in
  worker cmd sub_env (<[t_audio := file req]> (files w)) =
    Exited files' returncode stdout stderr ->
  returncode <> 0 ->
  t_audio ∉ immutable w ->
  let out := create_transcription req w in
  let failure := CalledProcessError returncode cmd stdout stderr in
  fst out = Raise (HTTPException 500 (str_exn failure)) /\
  (0 < returncode ->
     str_exn failure =
       "Command '" ++ PyStr.repr_list cmd ++ "' returned non-zero exit status "
         ++ PyStr.str_int returncode ++ ".") /\
  (forall stderr',
     str_exn (CalledProcessError returncode cmd stdout stderr') = str_exn failure) /\
  files (snd out) !! t_audio = None.
Proof.
  intros Hm Hl Hs Hlen cmd Hw Hrc Him out failure.
  assert (Hout : out = (Raise (HTTPException 500 (str_exn failure)),
                        snd (route req w)) /\
                 files (snd (route req w)) !! t_audio = None).
  { subst out. unfold create_transcription. rewrite Hm.
    unfold try_except, bind at 1. rewrite (route_held _ _ Hl).
    assert (Hacq : snd (lock_acquire w) =
              mkWorld (files w) (immutable w) (disk_free w) (names w) (locked w)
                      (trace w ++ [EvAcquire false])).
    { unfold lock_acquire. rewrite Hl. simpl. by rewrite Hl. }
    rewrite Hacq.
    rewrite (slow_lane_staged (file req) (language req) (prompt req)
               (temperature req) (mkWorld _ _ _ _ _ _) t_audio rest Hs Hlen).
    simpl. fold cmd. rewrite Hw.
    apply Z.eqb_neq in Hrc. rewrite Hrc.
    unfold try_finally, raise.
    rewrite remove_if_exists_removed;
      [|by eapply mkstemp_inner_truthy|done].
    simpl. split; [done|]. apply lookup_delete_eq. }
  destruct Hout as [-> Hfiles]. simpl. repeat split; [|done].
  intros Hpos. unfold failure. simpl.
  assert (Hneg : (returncode <? 0) = false) by (apply Z.ltb_ge; lia).
  by rewrite Hneg.
Qed.

Lemma try_finally_snd {S A} (body : M S A) (fin : M S unit) s :
  snd (try_finally body fin s) = snd (fin (snd (body s))).
Proof.
  unfold try_finally. destruct (body s) as [r s1]. simpl.
  by destruct (fin s1) as [[u|e] s2].
Qed.

Lemma try_finally_fst_inv {S A} (body : M S A) (fin : M S unit) s a :
  fst (try_finally body fin s) = Ok a -> fst (body s) = Ok a.
Proof.
  unfold try_finally. destruct (body s) as [r s1]. simpl.
  by destruct (fin s1) as [[u|e] s2].
Qed.

Lemma try_finally_fst {S A} (body : M S A) (fin : M S unit) s u :
  fst (fin (snd (body s))) = Ok u ->
  fst (try_finally body fin s) = fst (body s).
Proof.
  unfold try_finally. destruct (body s) as [r s1]. simpl.
  by destruct (fin s1) as [[u'|e] s2].
Qed.

Lemma cleanup_trace p q w :
  trace (snd ((remove_if_exists p ;;; remove_if_exists q) w)) = trace w.
Proof.
  unfold bind. pose proof (remove_if_exists_trace p w) as Hp.
  destruct (remove_if_exists p w) as [[u|e] w1]; simpl in *; [|done].
  by rewrite remove_if_exists_trace.
Qed.

Lemma cleanup_removed p q w :
  PyStr.truthy (Some p) = true -> PyStr.truthy (Some q) = true ->
  p ∉ immutable w -> q ∉ immutable w ->
  (remove_if_exists (Some p) ;;; remove_if_exists (Some q)) w =
    (Ok tt, set_files (delete q (delete p (files w))) w).
Proof.
  intros Hp Hq Hip Hiq. unfold bind.
  rewrite remove_if_exists_removed by done.
  by rewrite remove_if_exists_removed by done.
Qed.

(** C6. For a slow-lane invocation whose input is staged at [t_audio]
    under a name of the generator: [t_audio] is [tmp<name>.wav] in the
    staging directory and the output path is [tmp<name>.json] in the
    same directory, a function of the input's base name alone; the worker
    is started once, on [t_audio], with [--output_format json] and
    [--output_dir] the staging directory; and what the lane returns is
    what [json.load] makes of the file the worker left at that path. *)
Theorem C6_output_path_correlation a l p t w t_audio rest :
  Forall (fun n => candidate n = true) (names w) ->
  mkstemp_inner MODEL_CACHE_DIR "tmp" ".wav" (names w) (files w) = Some (t_audio, rest) ->
  (length a <= disk_free w)%nat ->
  let cmd := slow_lane_cmd t_audio l p t in
  let out := run_transcription_slow_lane a l p t w in
  exists name,
    t_audio = PyStr.join MODEL_CACHE_DIR ("tmp" ++ name ++ ".wav") /\
    PyStr.basename t_audio = "tmp" ++ name ++ ".wav" /\
    result_path t_audio = PyStr.join MODEL_CACHE_DIR ("tmp" ++ name ++ ".json") /\
    PyStr.basename (result_path t_audio) = "tmp" ++ name ++ ".json" /\
    (cmd !! 2%nat = Some t_audio /\
     cmd !! 5%nat = Some "--output_format" /\ cmd !! 6%nat = Some "json" /\
     cmd !! 7%nat = Some "--output_dir" /\ cmd !! 8%nat = Some MODEL_CACHE_DIR) /\
    trace (snd out) = (trace w ++ [EvSpawn cmd sub_env])%list /\
    (forall data, fst out = Ok data ->
       exists files' stdout stderr content,
         worker cmd sub_env (<[t_audio := a]> (files w)) =
           Exited files' 0 stdout stderr /\
         files' !! result_path t_audio = Some content /\
         json_load content = Ok data) /\
    (forall files' stdout stderr content,
       worker cmd sub_env (<[t_audio := a]> (files w)) =
         Exited files' 0 stdout stderr ->
       files' !! result_path t_audio = Some content ->
       t_audio ∉ immutable w -> result_path t_audio ∉ immutable w ->
       fst out = json_load content).
Proof.
  intros Hnames Hs Hlen cmd out.
  destruct (mkstemp_inner_spec _ _ _ _ _ _ _ Hs) as (sk & name & Hcands & Hfile & Hfresh).
  assert (Hn : candidate name = true).
  { rewrite Forall_forall in Hnames. apply Hnames.
    rewrite Hcands. apply list_elem_of_In, in_or_app. right. by left. }
  exists name. split; [done|].
  split; [rewrite Hfile; by apply basename_join, temp_name_no_sep|].
  assert (Hr : result_path t_audio =
               PyStr.join MODEL_CACHE_DIR ("tmp" ++ name ++ ".json"))
    by (rewrite Hfile; by apply result_path_staged).
  split; [done|].
  split; [rewrite Hr; by apply basename_join, temp_name_no_sep|].
  split; [done|].
  pose proof (mkstemp_inner_truthy _ _ _ _ _ _ Hs) as Htr.
  subst out. rewrite (slow_lane_staged _ _ _ _ _ _ _ Hs Hlen). simpl. fold cmd.
  destruct (worker cmd sub_env (<[t_audio:=a]> (files w)))
    as [e|files' returncode stdout stderr].
  - split; [by rewrite try_finally_snd, remove_if_exists_trace|].
    split; [|done].
    intros data Hd. by apply try_finally_fst_inv in Hd.
  - destruct (Z.eqb_spec returncode 0) as [->|Hrc].
    + split.
      { rewrite try_finally_snd, cleanup_trace. unfold open_json_load. simpl.
        by destruct (files' !! result_path t_audio). }
      split.
      * intros data Hd. apply try_finally_fst_inv in Hd.
        unfold open_json_load in Hd. simpl in Hd.
        destruct (files' !! result_path t_audio) as [content|] eqn:Hc; [|done].
        by exists files', stdout, stderr, content.
      * intros f' so se content [= <- <- <-] Hc Hit Hir.
        erewrite try_finally_fst.
        -- unfold open_json_load. simpl. by rewrite Hc.
        -- unfold open_json_load. simpl. rewrite Hc. simpl.
           rewrite cleanup_removed; [done|done|apply result_path_truthy|done|done].
    + split; [by rewrite try_finally_snd, remove_if_exists_trace|].
      split.
      * intros data Hd. by apply try_finally_fst_inv in Hd.
      * intros f' so se content [= _ Hz]. congruence.
Qed.

(** C8 (amended). In either lane, once a result has been obtained, the
    cleanup decides what the caller gets.  An artifact that is already
    gone is skipped.  A removal the system refuses raises inside
    [finally], and that exception replaces the result: the lane raises
    the removal error instead of returning the transcription.  Only when
    no removal is refused does the result come back. *)
Theorem C8_cleanup_error_replaces_result a l p t w :
  (forall file rest engine res,
     whisper_model = Some engine ->
     mkstemp_inner gettempdir "tmp" EmptyString (names w) (files w) = Some (file, rest) ->
     (length a <= disk_free w)%nat ->
     engine (<[file := a]> (files w)) file l p t = Ok res ->
     fst (run_transcription_fast_lane a l p t w) =
       if bool_decide (file ∈ immutable w)
       then Raise (OSError EPERM "Operation not permitted" (Some file))
       else Ok res)
  /\
  (forall t_audio rest files' stdout stderr content data,
     mkstemp_inner MODEL_CACHE_DIR "tmp" ".wav" (names w) (files w) = Some (t_audio, rest) ->
     (length a <= disk_free w)%nat ->
     worker (slow_lane_cmd t_audio l p t) sub_env (<[t_audio := a]> (files w)) =
       Exited files' 0 stdout stderr ->
     files' !! result_path t_audio = Some content ->
     json_load content = Ok data ->
     fst (run_transcription_slow_lane a l p t w) =
       if bool_decide (t_audio ∈ immutable w /\ is_Some (files' !! t_audio))
       then Raise (OSError EPERM "Operation not permitted" (Some t_audio))
       else if bool_decide (result_path t_audio ∈ immutable w)
       then Raise (OSError EPERM "Operation not permitted" (Some (result_path t_audio)))
       else Ok data).
Proof.
  split.
  - intros file rest engine res Hm Hs Hlen Hres.
    pose proof (mkstemp_inner_truthy _ _ _ _ _ _ Hs) as Htr.
    rewrite (fast_lane_staged _ _ _ _ _ _ _ _ Hm Hs Hlen).
    unfold try_finally, of_result. simpl. rewrite Hres.
    case_bool_decide as Him.
    + rewrite remove_if_exists_refused; [done|done|done|].
      simpl. rewrite lookup_insert_eq. by eexists.
    + by rewrite remove_if_exists_removed.
  - intros t_audio rest files' stdout stderr content data Hs Hlen Hw Hc Hd.
    pose proof (mkstemp_inner_truthy _ _ _ _ _ _ Hs) as Htr.
    pose proof (result_path_truthy t_audio) as Hrtr.
    rewrite (slow_lane_staged _ _ _ _ _ _ _ Hs Hlen). simpl. rewrite Hw. simpl.
    unfold try_finally, open_json_load, bind. simpl. rewrite Hc, Hd.
    case_bool_decide as Hin.
    + destruct Hin as [Him Hex].
      by rewrite remove_if_exists_refused.
    + destruct (decide (t_audio ∈ immutable w)) as [Him|Him].
      * assert (Hgone : files' !! t_audio = None).
        { destruct (files' !! t_audio) eqn:E; [|done].
          exfalso. apply Hin. split; [done|by eexists]. }
        rewrite remove_if_exists_gone by done.
        case_bool_decide as Hir.
        -- rewrite remove_if_exists_refused; [done|done|done|].
           simpl. rewrite Hc. by eexists.
        -- by rewrite remove_if_exists_removed.
      * rewrite remove_if_exists_removed by done. simpl.
        case_bool_decide as Hir.
        -- rewrite remove_if_exists_refused; [done|done|done|].
           simpl. rewrite lookup_delete_ne by congruence.
           rewrite Hc. by eexists.
        -- by rewrite remove_if_exists_removed.
Qed.


End Outcomes.

(** ** The shape of the response *)

Section Response.
Context `{D : Deployment}.

Lemma route_with_format fmt req : route (with_format fmt req) = route req.
Proof. reflexivity. Qed.

Lemma is_text_iff fmt : is_text fmt = true <-> fmt = Some "text".
Proof.
  unfold is_text. destruct fmt as [f|]; [|done]. rewrite String.eqb_eq.
  split; [by intros ->|by intros [= ->]].
Qed.

(** The endpoint in terms of the router's outcome. *)
Lemma create_transcription_shape req w engine :
  whisper_model = Some engine ->
  create_transcription req w =
    match route req w with
    | (Ok res, w') =>
        if is_text (response_format req) then
          match getitem res "text" with
          | Ok v => (Ok v, w')
          | Raise e => (Raise (HTTPException 500 (str_exn e)), w')
          end
        else (Ok res, w')
    | (Raise e, w') => (Raise (HTTPException 500 (str_exn e)), w')
    end.
Proof.
  intros Hm. unfold create_transcription. rewrite Hm.
  unfold try_except, bind. destruct (route req w) as [[res|e] w']; [|done].
  destruct (is_text _); [|done].
  unfold of_result. by destruct (getitem res "text").
Qed.

(** C7. For the same form and the same world, when the request with
    [response_format = json] returns the mapping [res] and [res] has the
    field [text], the request with [response_format = text] returns
    exactly that field, and leaves the same world. *)
Theorem C7_text_is_field_of_json req w res txt w' :
  create_transcription (with_format (Some "json") req) w = (Ok res, w') ->
  getitem res "text" = Ok txt ->
  create_transcription (with_format (Some "text") req) w = (Ok txt, w').
Proof.
  intros Hjson Htxt. destruct whisper_model as [engine|] eqn:Hm.
  - rewrite (create_transcription_shape _ _ _ Hm) in Hjson.
    rewrite (create_transcription_shape _ _ _ Hm).
    rewrite route_with_format in *.
    destruct (route req w) as [[r|e] w1]; simpl in *; [|done].
    injection Hjson as -> ->. by rewrite Htxt.
  - unfold create_transcription in Hjson. by rewrite Hm in Hjson.
Qed.

(** C10. With the router having produced [res]: any [response_format]
    other than the exact string [text], absent or unrecognised alike,
    returns [res] unchanged; the exact string [text] returns [res["text"]]
    when there is one, and when the mapping has no key [text] the
    request fails with the processing error whose message is the
    [KeyError]'s. *)
Theorem C10_response_shape req w engine res w' :
  whisper_model = Some engine ->
  route req w = (Ok res, w') ->
  (response_format req <> Some "text" ->
     create_transcription req w = (Ok res, w')) /\
  (response_format req = Some "text" ->
     (forall v, getitem res "text" = Ok v ->
        create_transcription req w = (Ok v, w')) /\
     (forall d, res = VDict d -> dict_get "text" d = None ->
        create_transcription req w = (Raise (HTTPException 500 "'text'"), w'))).
Proof.
  intros Hm Hr. rewrite (create_transcription_shape _ _ _ Hm), Hr.
  split.
  - intros Hne. destruct (is_text (response_format req)) eqn:E; [|done].
    by apply is_text_iff in E.
  - intros Heq. apply is_text_iff in Heq. rewrite Heq. split.
    + by intros v ->.
    + intros d -> Hd. simpl. by rewrite Hd.
Qed.

End Response.

(** ** The model at work: concrete runs *)

Section Runs.
Import Demo.

#[local] Existing Instance hot.

Example basename_staged :
  PyStr.basename slow_wav = "tmpab12cd_z.wav".
Proof. reflexivity. Qed.

Example splitext_leading_dots :
  PyStr.splitext "/a.b/..hidden" = ("/a.b/..hidden", EmptyString) /\
  PyStr.splitext "/a.b/.x.y" = ("/a.b/.x", ".y") /\
  PyStr.splitext "a.b/c" = ("a.b/c", EmptyString).
Proof. repeat split. Qed.

Example join_cases :
  PyStr.join "/opt/x" "f.json" = "/opt/x/f.json" /\
  PyStr.join "/opt/x/" "f" = "/opt/x/f" /\
  PyStr.join EmptyString "f" = "f" /\
  PyStr.join "a" "/f" = "/f".
Proof. repeat split. Qed.

Example repr_list_of_str :
  PyStr.repr_list ["a"; "x y"; "a\b"] = "['a', 'x y', 'a\\b']".
Proof. reflexivity. Qed.

Example str_int_cases :
  PyStr.str_int 0 = "0" /\ PyStr.str_int 137 = "137" /\
  PyStr.str_int (-9) = "-9" /\ PyStr.str_int 1000 = "1000".
Proof. repeat split. Qed.

(** Scenario A: engine loaded, lock free, the fast lane answers. *)
Example scenario_fast_lane :
  fst (create_transcription (request "RIFFdata" None None None)
         (world false 100 ∅)) = Ok transcript.
Proof. vm_compute. reflexivity. Qed.

(** Scenario B: lock held, the slow lane answers the same and leaves no
    file behind. *)
Example scenario_slow_lane :
  fst (create_transcription (request "RIFFdata" None None None)
         (world true 100 ∅)) = Ok transcript /\
  files (snd (create_transcription (request "RIFFdata" None None None)
                (world true 100 ∅))) = ∅.
Proof. vm_compute. split; reflexivity. Qed.


(** C2, at a deployment whose model failed to load. *)
Lemma C2_engine_absent_witness :
  whisper_model (Deployment := cold) = None /\
  create_transcription (D := cold)
    (mkRequest (D := cold) (bytes "RIFFdata") None None None "0.0")
    (mkWorld (D := cold) ∅ ∅ 100 ["ab12cd_z"] false []) =
    (Raise (HTTPException 500 "Model not loaded."),
     mkWorld (D := cold) ∅ ∅ 100 ["ab12cd_z"] false []).
Proof.
  split; [reflexivity|].
  apply (C2_engine_absent_fails_first (D := cold)). reflexivity.
Defined.



(** C5 as stated fails.  The worker exits with status 1 after writing
    [CUDA out of memory] to stderr: the caller receives status 500 with
    the command line and the exit status, and the stderr text is
    nowhere in the message. *)
Lemma C5_stderr_not_in_message :
  worker (slow_lane_cmd slow_wav None None "0.0") sub_env
         (<[slow_wav := bytes "boom"]> ∅) =
    Exited (<[slow_json := bytes "{"]> (<[slow_wav := bytes "boom"]> ∅)) 1
           EmptyString "CUDA out of memory" /\
  fst (create_transcription (request "boom" None None None) (world true 100 ∅)) =
    Raise (HTTPException 500
      "Command '['/usr/local/lib/whisper/bin/python', '/usr/local/lib/whisper/bin/whisper', '/opt/ai/models/speech/whisper/tmpab12cd_z.wav', '--model', 'medium', '--output_format', 'json', '--output_dir', '/opt/ai/models/speech/whisper', '--temperature', '0.0']' returned non-zero exit status 1.") /\
  PyStr.contains "CUDA out of memory"
    "Command '['/usr/local/lib/whisper/bin/python', '/usr/local/lib/whisper/bin/whisper', '/opt/ai/models/speech/whisper/tmpab12cd_z.wav', '--model', 'medium', '--output_format', 'json', '--output_dir', '/opt/ai/models/speech/whisper', '--temperature', '0.0']' returned non-zero exit status 1."
    = false.
Proof. vm_compute. repeat split. Qed.

(** C5 (amended), at the failing worker. *)
Lemma C5_worker_failure_witness :
  fst (create_transcription (request "boom" None None None) (world true 100 ∅)) =
    Raise (HTTPException 500
             (str_exn (CalledProcessError 1 (slow_lane_cmd slow_wav None None "0.0")
                         EmptyString "CUDA out of memory"))) /\
  files (snd (create_transcription (request "boom" None None None)
                (world true 100 ∅))) !! slow_wav = None.
Proof.
  pose proof (C5_worker_failure_response (D := hot) (request "boom" None None None)
                (world true 100 ∅) engine slow_wav ["k3k3k3k3"]
                (<[slow_json := bytes "{"]> (<[slow_wav := bytes "boom"]> ∅)) 1
                EmptyString "CUDA out of memory"
                eq_refl eq_refl eq_refl ltac:(vm_compute; lia)
                ltac:(vm_compute; reflexivity) ltac:(discriminate)
                ltac:(apply not_elem_of_empty))
    as (H1 & _ & _ & H2).
  split; [exact H1 | exact H2].
Defined.

(** C6, at a successful run. *)
Lemma C6_output_path_witness :
  result_path slow_wav = slow_json /\
  fst (run_transcription_slow_lane (bytes "RIFFdata") None None "0.0"
         (world true 100 ∅)) = json_load transcript_json.
Proof.
  destruct (C6_output_path_correlation (D := hot) (bytes "RIFFdata") None None "0.0"
              (world true 100 ∅) slow_wav ["k3k3k3k3"]
              ltac:(repeat constructor) eq_refl ltac:(vm_compute; lia))
    as (name & _ & _ & _ & _ & _ & _ & _ & H).
  split; [reflexivity|].
  apply (H (<[slow_json := transcript_json]> (<[slow_wav := bytes "RIFFdata"]> ∅))
           EmptyString EmptyString transcript_json).
  - vm_compute. reflexivity.
  - vm_compute. reflexivity.
  - apply not_elem_of_empty.
  - apply not_elem_of_empty.
Defined.

(** C7, on both lanes: the text response is the field of the json
    response and the world is left the same. *)
Lemma C7_text_witness :
  (fst (create_transcription (request "RIFFdata" None None (Some "text"))
          (world false 100 ∅)) = Ok (VStr " hello world") /\
   snd (create_transcription (request "RIFFdata" None None (Some "text"))
          (world false 100 ∅)) =
   snd (create_transcription (request "RIFFdata" None None (Some "json"))
          (world false 100 ∅))) /\
  (fst (create_transcription (request "RIFFdata" None None (Some "text"))
          (world true 100 ∅)) = Ok (VStr " hello world") /\
   snd (create_transcription (request "RIFFdata" None None (Some "text"))
          (world true 100 ∅)) =
   snd (create_transcription (request "RIFFdata" None None (Some "json"))
          (world true 100 ∅))).
Proof.
  split.
  - assert (Hr : fst (create_transcription
                        (request "RIFFdata" None None (Some "json"))
                        (world false 100 ∅)) = Ok transcript)
      by (vm_compute; reflexivity).
    destruct (create_transcription (request "RIFFdata" None None (Some "json"))
                (world false 100 ∅)) as [r w1] eqn:E.
    simpl in Hr. subst r.
    pose proof (C7_text_is_field_of_json (D := hot)
                  (request "RIFFdata" None None None) (world false 100 ∅)
                  transcript (VStr " hello world") w1 E eq_refl) as H.
    change (create_transcription (request "RIFFdata" None None (Some "text"))
              (world false 100 ∅) = (Ok (VStr " hello world"), w1)) in H.
    rewrite H. split; reflexivity.
  - assert (Hr : fst (create_transcription
                        (request "RIFFdata" None None (Some "json"))
                        (world true 100 ∅)) = Ok transcript)
      by (vm_compute; reflexivity).
    destruct (create_transcription (request "RIFFdata" None None (Some "json"))
                (world true 100 ∅)) as [r w1] eqn:E.
    simpl in Hr. subst r.
    pose proof (C7_text_is_field_of_json (D := hot)
                  (request "RIFFdata" None None None) (world true 100 ∅)
                  transcript (VStr " hello world") w1 E eq_refl) as H.
    change (create_transcription (request "RIFFdata" None None (Some "text"))
              (world true 100 ∅) = (Ok (VStr " hello world"), w1)) in H.
    rewrite H. split; reflexivity.
Defined.

(** C8 as stated fails.  Fast lane: the engine has returned the
    transcript, the removal of the temp file is refused, and the caller
    gets the removal error, not the transcript.  Slow lane: the worker
    succeeded and its output parses, the removal of the output is
    refused, and again the error replaces the result. *)
Lemma C8_refused_removal_masks_result :
  (engine (<[fast_tmp := bytes "RIFFdata"]> ∅) fast_tmp None None "0.0" =
     Ok transcript /\
   fst (run_transcription_fast_lane (bytes "RIFFdata") None None "0.0"
          (world false 100 {[fast_tmp]})) =
     Raise (OSError EPERM "Operation not permitted" (Some fast_tmp)) /\
   fst (create_transcription (request "RIFFdata" None None None)
          (world false 100 {[fast_tmp]})) =
     Raise (HTTPException 500
              "[Errno 1] Operation not permitted: '/tmp/tmpab12cd_z'")) /\
  (worker (slow_lane_cmd slow_wav None None "0.0") sub_env
          (<[slow_wav := bytes "RIFFdata"]> ∅) =
     Exited (<[slow_json := transcript_json]> (<[slow_wav := bytes "RIFFdata"]> ∅))
            0 EmptyString EmptyString /\
   json_load transcript_json = Ok transcript /\
   fst (run_transcription_slow_lane (bytes "RIFFdata") None None "0.0"
          (world true 100 {[slow_json]})) =
     Raise (OSError EPERM "Operation not permitted" (Some slow_json)) /\
   fst (create_transcription (request "RIFFdata" None None None)
          (world true 100 {[slow_json]})) =
     Raise (HTTPException 500
              "[Errno 1] Operation not permitted: '/opt/ai/models/speech/whisper/tmpab12cd_z.json'")).
Proof. vm_compute. repeat split. Qed.

(** C8 (amended), at a refused and at a granted removal, in both lanes. *)
Lemma C8_cleanup_witness :
  (fst (run_transcription_fast_lane (bytes "RIFFdata") None None "0.0"
          (world false 100 {[fast_tmp]})) =
     Raise (OSError EPERM "Operation not permitted" (Some fast_tmp)) /\
   fst (run_transcription_fast_lane (bytes "RIFFdata") None None "0.0"
          (world false 100 ∅)) = Ok transcript) /\
  (fst (run_transcription_slow_lane (bytes "RIFFdata") None None "0.0"
          (world true 100 {[slow_json]})) =
     Raise (OSError EPERM "Operation not permitted" (Some slow_json)) /\
   fst (run_transcription_slow_lane (bytes "RIFFdata") None None "0.0"
          (world true 100 ∅)) = Ok transcript).
Proof.
  split; split.
  - apply (proj1 (C8_cleanup_error_replaces_result (D := hot) (bytes "RIFFdata") None None
                    "0.0" (world false 100 {[fast_tmp]}))
             fast_tmp ["k3k3k3k3"] engine transcript eq_refl eq_refl
             ltac:(vm_compute; lia) ltac:(vm_compute; reflexivity)).
  - apply (proj1 (C8_cleanup_error_replaces_result (D := hot) (bytes "RIFFdata") None None
                    "0.0" (world false 100 ∅))
             fast_tmp ["k3k3k3k3"] engine transcript eq_refl eq_refl
             ltac:(vm_compute; lia) ltac:(vm_compute; reflexivity)).
  - apply (proj2 (C8_cleanup_error_replaces_result (D := hot) (bytes "RIFFdata") None None
                    "0.0" (world true 100 {[slow_json]}))
             slow_wav ["k3k3k3k3"]
             (<[slow_json := transcript_json]> (<[slow_wav := bytes "RIFFdata"]> ∅))
             EmptyString EmptyString transcript_json transcript eq_refl
             ltac:(vm_compute; lia) ltac:(vm_compute; reflexivity)
             ltac:(vm_compute; reflexivity) ltac:(vm_compute; reflexivity)).
  - apply (proj2 (C8_cleanup_error_replaces_result (D := hot) (bytes "RIFFdata") None None
                    "0.0" (world true 100 ∅))
             slow_wav ["k3k3k3k3"]
             (<[slow_json := transcript_json]> (<[slow_wav := bytes "RIFFdata"]> ∅))
             EmptyString EmptyString transcript_json transcript eq_refl
             ltac:(vm_compute; lia) ltac:(vm_compute; reflexivity)
             ltac:(vm_compute; reflexivity) ltac:(vm_compute; reflexivity)).
Defined.


(** C10, at an unrecognised format, at [text] with the field present,
    and at [text] for a mapping without it. *)
Lemma C10_response_shape_witness :
  fst (create_transcription (request "RIFFdata" None None (Some "xml"))
         (world false 100 ∅)) = Ok transcript /\
  fst (create_transcription (request "RIFFdata" None None (Some "text"))
         (world false 100 ∅)) = Ok (VStr " hello world") /\
  fst (create_transcription (request "notext" None None (Some "text"))
         (world false 100 ∅)) = Raise (HTTPException 500 "'text'").
Proof.
  split; [|split].
  - assert (Hr : fst (route (request "RIFFdata" None None (Some "xml"))
                        (world false 100 ∅)) = Ok transcript)
      by (vm_compute; reflexivity).
    destruct (route (request "RIFFdata" None None (Some "xml"))
                (world false 100 ∅)) as [r w1] eqn:E.
    simpl in Hr. subst r.
    destruct (C10_response_shape (D := hot)
                (request "RIFFdata" None None (Some "xml")) (world false 100 ∅)
                engine transcript w1 eq_refl E) as [H _].
    rewrite (H ltac:(discriminate)). reflexivity.
  - assert (Hr : fst (route (request "RIFFdata" None None (Some "text"))
                        (world false 100 ∅)) = Ok transcript)
      by (vm_compute; reflexivity).
    destruct (route (request "RIFFdata" None None (Some "text"))
                (world false 100 ∅)) as [r w1] eqn:E.
    simpl in Hr. subst r.
    destruct (C10_response_shape (D := hot)
                (request "RIFFdata" None None (Some "text")) (world false 100 ∅)
                engine transcript w1 eq_refl E) as [_ H].
    destruct (H eq_refl) as [Hv _].
    rewrite (Hv (VStr " hello world") eq_refl). reflexivity.
  - assert (Hr : fst (route (request "notext" None None (Some "text"))
                        (world false 100 ∅)) = Ok (VDict [("language", VStr "en")]))
      by (vm_compute; reflexivity).
    destruct (route (request "notext" None None (Some "text"))
                (world false 100 ∅)) as [r w1] eqn:E.
    simpl in Hr. subst r.
    destruct (C10_response_shape (D := hot)
                (request "notext" None None (Some "text")) (world false 100 ∅)
                engine (VDict [("language", VStr "en")]) w1 eq_refl E) as [_ H].
    destruct (H eq_refl) as [_ Hd].
    rewrite (Hd _ eq_refl eq_refl). reflexivity.
Defined.

End Runs.

(** ** The lanes on every path *)

Section EveryPath.
Context `{D : Deployment}.

(** No candidate name is free: the lane stops at [NamedTemporaryFile]. *)
Lemma fast_lane_no_name a l p t w :
  mkstemp_inner gettempdir "tmp" EmptyString (names w) (files w) = None ->
  run_transcription_fast_lane a l p t w =
    (Raise (OSError EEXIST "No usable temporary file name found" None),
     set_names [] w).
Proof.
  intros Hs.
  unfold run_transcription_fast_lane, with_locals, try_finally, bind, lift,
    NamedTemporaryFile.
  simpl. by rewrite Hs.
Qed.

Lemma slow_lane_no_name a l p t w :
  mkstemp_inner MODEL_CACHE_DIR "tmp" ".wav" (names w) (files w) = None ->
  run_transcription_slow_lane a l p t w =
    (Raise (OSError EEXIST "No usable temporary file name found" None),
     set_names [] w).
Proof.
  intros Hs.
  unfold run_transcription_slow_lane, with_locals, try_finally, bind, lift,
    NamedTemporaryFile.
  simpl. by rewrite Hs.
Qed.

(** [t.write] raises: [t_audio] is still [None] and nothing is spawned. *)
Lemma slow_lane_write_raises a l p t w file rest :
  mkstemp_inner MODEL_CACHE_DIR "tmp" ".wav" (names w) (files w) = Some (file, rest) ->
  (buffer_size file < length a)%nat ->
  (disk_free w < length a)%nat ->
  run_transcription_slow_lane a l p t w =
    (Raise (OSError ENOSPC "No space left on device" None),
     set_names rest (set_files (<[file := []]> (files w)) w)).
Proof.
  intros Hs Hbuf Hlen.
  unfold run_transcription_slow_lane, with_locals, try_finally, lift,
    NamedTemporaryFile, buffered_write, file_write, bind.
  simpl. rewrite Hs. simpl.
  apply Nat.leb_gt in Hbuf, Hlen. rewrite Hbuf. simpl. by rewrite Hlen.
Qed.

(** The cleanup of one path leaves every other path alone. *)
Lemma remove_if_exists_other p q w :
  q <> p ->
  files (snd (remove_if_exists (Some p) w)) !! q = files w !! q.
Proof.
  intros Hq. unfold remove_if_exists. destruct (PyStr.truthy _); [|done].
  unfold bind, os_path_exists, os_remove.
  destruct (files w !! p) as [c|] eqn:Hp.
  - rewrite bool_decide_eq_true_2 by (by eexists). rewrite Hp.
    destruct (bool_decide _); [done|]. simpl. by rewrite lookup_delete_ne.
  - rewrite bool_decide_eq_false_2; [done|]. by intros [? ?].
Qed.

#[local] Arguments remove_if_exists : simpl never.

Lemma cleanup_other p r q w :
  q <> p -> q <> r ->
  files (snd ((remove_if_exists (Some p) ;;; remove_if_exists (Some r)) w)) !! q =
    files w !! q.
Proof.
  intros Hp Hr. unfold bind.
  pose proof (remove_if_exists_other p q w Hp) as H1.
  destruct (remove_if_exists (Some p) w) as [[u|e] w1]; simpl in *; [|done].
  by rewrite remove_if_exists_other, H1.
Qed.

(** The close raises: [t_audio] is bound, nothing is spawned and the
    cleanup works on the staged path. *)
Lemma slow_lane_close_raises a l p t w file rest :
  mkstemp_inner MODEL_CACHE_DIR "tmp" ".wav" (names w) (files w) = Some (file, rest) ->
  (length a <= buffer_size file)%nat ->
  (disk_free w < length a)%nat ->
  run_transcription_slow_lane a l p t w =
    try_finally (raise (OSError ENOSPC "No space left on device" None))
                (remove_if_exists (Some file))
                (set_names rest (set_files (<[file := []]> (files w)) w)).
Proof.
  intros Hs Hbuf Hlen.
  unfold run_transcription_slow_lane, with_locals, try_finally, lift,
    NamedTemporaryFile, buffered_write, file_close, file_write,
    set_locals, get_locals, raise, ret, bind.
  simpl. rewrite Hs. simpl.
  apply Nat.leb_le in Hbuf. rewrite Hbuf. simpl.
  apply Nat.leb_gt in Hlen.
  destruct a as [|b a']; [done|].
  lazy beta iota zeta.
  change (disk_free (set_names rest (set_files (<[file:=[]]> (files w)) w)))
    with (disk_free w).
  rewrite Hlen. simpl.
  change (remove_if_exists None) with (ret (S := World) tt).
  match goal with
  | |- context [remove_if_exists (Some file) ?w1] =>
      destruct (remove_if_exists (Some file) w1) as [[u|e] w3]
  end; done.
Qed.

(** The fast lane entered with no model: the call on [None] raises, after
    the audio was staged, and the cleanup runs. *)
Lemma fast_lane_no_model a l p t w file rest :
  whisper_model = None ->
  mkstemp_inner gettempdir "tmp" EmptyString (names w) (files w) = Some (file, rest) ->
  (length a <= disk_free w)%nat ->
  run_transcription_fast_lane a l p t w =
    try_finally
      (raise (AttributeError "'NoneType' object has no attribute 'transcribe'"))
      (remove_if_exists (Some file))
      (mkWorld (<[file := a]> (files w)) (immutable w) (disk_free w) rest
               (locked w) (trace w)).
Proof.
  intros Hm Hs Hlen.
  unfold run_transcription_fast_lane, with_locals, try_finally, lift,
    NamedTemporaryFile, buffered_write, file_close, file_write,
    model_transcribe, set_locals, get_locals, raise, ret, bind.
  simpl. rewrite Hs. simpl.
  apply Nat.leb_le in Hlen.
  destruct (length a <=? buffer_size file)%nat; simpl;
    [destruct a as [|b a']; simpl in *|];
    rewrite ?Hlen; simpl; rewrite Hm; simpl;
    unfold set_files, set_names; simpl; rewrite ?insert_insert_eq;
    match goal with
    | |- context [remove_if_exists (Some file) ?w2] =>
        destruct (remove_if_exists (Some file) w2) as [[u|e] w3]
    end; done.
Qed.


Lemma slow_lane_trace_staged a l p t w t_audio rest :
  mkstemp_inner MODEL_CACHE_DIR "tmp" ".wav" (names w) (files w) =
    Some (t_audio, rest) ->
  (length a <= disk_free w)%nat ->
  trace (snd (run_transcription_slow_lane a l p t w)) =
    (trace w ++ [EvSpawn (slow_lane_cmd t_audio l p t) sub_env])%list.
Proof.
  intros Hs Hlen.
  rewrite (slow_lane_staged _ _ _ _ _ _ _ Hs Hlen). simpl.
  destruct (worker _ _ _) as [e|files' returncode stdout stderr].
  - by rewrite try_finally_snd, remove_if_exists_trace.
  - destruct (returncode =? 0).
    + rewrite try_finally_snd, cleanup_trace. unfold open_json_load. simpl.
      by destruct (files' !! result_path t_audio).
    + by rewrite try_finally_snd, remove_if_exists_trace.
Qed.

Lemma slow_lane_trace a l p t w :
  trace (snd (run_transcription_slow_lane a l p t w)) = trace w \/
  exists t_audio rest,
    mkstemp_inner MODEL_CACHE_DIR "tmp" ".wav" (names w) (files w) =
      Some (t_audio, rest) /\
    trace (snd (run_transcription_slow_lane a l p t w)) =
      (trace w ++ [EvSpawn (slow_lane_cmd t_audio l p t) sub_env])%list.
Proof.
  destruct (mkstemp_inner MODEL_CACHE_DIR "tmp" ".wav" (names w) (files w))
    as [[file rest]|] eqn:Hs.
  - destruct (le_lt_dec (length a) (disk_free w)) as [Hlen|Hlen].
    + right. exists file, rest. split; [done|].
      by apply (slow_lane_trace_staged _ _ _ _ _ _ rest).
    + left. destruct (le_lt_dec (length a) (buffer_size file)) as [Hbuf|Hbuf].
      * rewrite (slow_lane_close_raises _ _ _ _ _ _ _ Hs Hbuf Hlen).
        by rewrite try_finally_snd, remove_if_exists_trace.
      * by rewrite (slow_lane_write_raises _ _ _ _ _ _ _ Hs Hbuf Hlen).
  - left. by rewrite (slow_lane_no_name _ _ _ _ _ Hs).
Qed.

End EveryPath.

(** ** Failures and what is left untouched *)

Section Failures.
Context `{D : Deployment}.

#[local] Arguments remove_if_exists : simpl never.

Lemma lock_release_files w : files (snd (lock_release w)) = files w.
Proof. unfold lock_release. by destruct (locked w). Qed.

Lemma lock_acquire_world w :
  snd (lock_acquire w) =
    mkWorld (files w) (immutable w) (disk_free w) (names w) true
            (trace w ++ [EvAcquire (negb (locked w))]).
Proof.
  unfold lock_acquire. destruct (locked w) eqn:E; unfold bind, emit; simpl;
    by rewrite ?E.
Qed.

(** Every error of the endpoint is an [HTTPException] with status 500:
    whatever a lane, the lock or the response shaping raised reaches the
    caller in that one form. *)
Theorem endpoint_errors_are_http_500 req w e :
  fst (create_transcription req w) = Raise e ->
  exists detail, e = HTTPException 500 detail.
Proof.
  destruct whisper_model as [engine|] eqn:Hm.
  - rewrite (create_transcription_shape _ _ _ Hm).
    destruct (route req w) as [[res|e'] w'].
    + destruct (is_text _); [|done].
      destruct (getitem res "text") as [v|e'']; [done|].
      intros [= <-]. by eexists.
    + intros [= <-]. by eexists.
  - unfold create_transcription. rewrite Hm. intros [= <-]. by eexists.
Qed.

(** The fast lane never alters a file that was there before the call: on
    every path, failures and refused removals included, each such file
    has the content it had. *)
Theorem fast_lane_keeps_existing_files a l p t w path content :
  files w !! path = Some content ->
  files (snd (run_transcription_fast_lane a l p t w)) !! path = Some content.
Proof.
  intros Hp.
  destruct (mkstemp_inner gettempdir "tmp" EmptyString (names w) (files w))
    as [[tmp rest]|] eqn:Hs.
  - assert (Hne : path <> tmp).
    { destruct (mkstemp_inner_spec _ _ _ _ _ _ _ Hs) as (? & ? & _ & _ & Hf).
      congruence. }
    destruct (le_lt_dec (length a) (disk_free w)) as [Hlen|Hlen].
    + destruct whisper_model as [engine|] eqn:Hm.
      * rewrite (fast_lane_staged _ _ _ _ _ _ _ _ Hm Hs Hlen).
        rewrite try_finally_snd, remove_if_exists_other by done.
        simpl. by rewrite lookup_insert_ne.
      * rewrite (fast_lane_no_model _ _ _ _ _ _ _ Hm Hs Hlen).
        rewrite try_finally_snd, remove_if_exists_other by done.
        simpl. by rewrite lookup_insert_ne.
    + destruct (le_lt_dec (length a) (buffer_size tmp)) as [Hbuf|Hbuf].
      * rewrite (fast_lane_close_raises _ _ _ _ _ _ _ Hs Hbuf Hlen).
        rewrite try_finally_snd, remove_if_exists_other by done.
        simpl. by rewrite lookup_insert_ne.
      * rewrite (fast_lane_write_raises _ _ _ _ _ _ _ Hs Hbuf Hlen). simpl.
        by rewrite lookup_insert_ne.
  - by rewrite (fast_lane_no_name _ _ _ _ _ Hs).
Qed.

(** A request served by the fast lane, its audio written and the removal
    of the temp file not refused, leaves the files exactly as they were
    and the lock free, whether the engine returned or raised. *)
Theorem fast_request_restores_files req w engine tmp rest :
  whisper_model = Some engine ->
  locked w = false ->
  mkstemp_inner gettempdir "tmp" EmptyString (names w) (files w) = Some (tmp, rest) ->
  (length (file req) <= disk_free w)%nat ->
  tmp ∉ immutable w ->
  files (snd (create_transcription req w)) = files w /\
  locked (snd (create_transcription req w)) = false.
Proof.
  intros Hm Hl Hs Hlen Him.
  rewrite (create_transcription_world _ _ _ Hm), (route_free _ _ Hl).
  rewrite try_finally_snd, lock_acquire_world. simpl.
  set (w1 := mkWorld (files w) (immutable w) (disk_free w) (names w) true
                     (trace w ++ [EvAcquire (negb (locked w))])).
  destruct (fast_lane_removes_temp_file (file req) (language req) (prompt req)
              (temperature req) w1 tmp rest engine Hm Hs Hlen Him) as [_ Hf].
  destruct (fast_lane_kept (file req) (language req) (prompt req)
              (temperature req) w1) as [Hk _].
  rewrite lock_release_files. split; [done|].
  unfold lock_release. rewrite Hk. done.
Qed.

(** With no temp name left for the lane the request would take, the
    endpoint answers 500 with the [FileExistsError] of [tempfile]; the
    files are as before, the lock is as before, and apart from the lock
    nothing outside was called. *)
Theorem request_without_temp_name req w engine :
  whisper_model = Some engine ->
  (if locked w
   then mkstemp_inner MODEL_CACHE_DIR "tmp" ".wav" (names w) (files w)
   else mkstemp_inner gettempdir "tmp" EmptyString (names w) (files w)) = None ->
  fst (create_transcription req w) =
    Raise (HTTPException 500 "[Errno 17] No usable temporary file name found") /\
  files (snd (create_transcription req w)) = files w /\
  locked (snd (create_transcription req w)) = locked w /\
  trace (snd (create_transcription req w)) =
    (trace w ++ if locked w then [EvAcquire false]
                else [EvAcquire true; EvRelease])%list.
Proof.
  intros Hm Hs.
  rewrite (create_transcription_shape _ _ _ Hm).
  destruct (locked w) eqn:Hl.
  - rewrite (route_held _ _ Hl), lock_acquire_world, Hl.
    rewrite slow_lane_no_name by done. by simpl.
  - rewrite (route_free _ _ Hl), lock_acquire_world, Hl.
    unfold try_finally. rewrite fast_lane_no_name by done.
    unfold lock_release. simpl. rewrite <- app_assoc. by simpl.
Qed.


(** A worker that exits with status 0 and leaves no file at the output
    path: the lane raises the [FileNotFoundError] of [open], naming that
    path, and still removes the input. *)
Theorem slow_lane_missing_output a l p t w t_audio rest files' stdout stderr :
  mkstemp_inner MODEL_CACHE_DIR "tmp" ".wav" (names w) (files w) = Some (t_audio, rest) ->
  (length a <= disk_free w)%nat ->
  worker (slow_lane_cmd t_audio l p t) sub_env (<[t_audio := a]> (files w)) =
    Exited files' 0 stdout stderr ->
  files' !! result_path t_audio = None ->
  t_audio ∉ immutable w ->
  fst (run_transcription_slow_lane a l p t w) =
    Raise (OSError ENOENT "No such file or directory" (Some (result_path t_audio))) /\
  files (snd (run_transcription_slow_lane a l p t w)) = delete t_audio files'.
Proof.
  intros Hs Hlen Hw Hr Him.
  pose proof (mkstemp_inner_truthy _ _ _ _ _ _ Hs) as Htr.
  rewrite (slow_lane_staged _ _ _ _ _ _ _ Hs Hlen). simpl. rewrite Hw. simpl.
  unfold try_finally, open_json_load, bind. simpl. rewrite Hr.
  rewrite remove_if_exists_removed by done. simpl.
  rewrite remove_if_exists_gone; [done|].
  simpl. rewrite lookup_delete. case_decide; done.
Qed.

(** A worker that cannot be started: the lane raises what [subprocess.run]
    raised, removes the input, and the files are as before the call. *)
Theorem slow_lane_spawn_failure a l p t w t_audio rest e :
  mkstemp_inner MODEL_CACHE_DIR "tmp" ".wav" (names w) (files w) = Some (t_audio, rest) ->
  (length a <= disk_free w)%nat ->
  worker (slow_lane_cmd t_audio l p t) sub_env (<[t_audio := a]> (files w)) =
    SpawnFailed e ->
  t_audio ∉ immutable w ->
  fst (run_transcription_slow_lane a l p t w) = Raise e /\
  files (snd (run_transcription_slow_lane a l p t w)) = files w.
Proof.
  intros Hs Hlen Hw Him.
  pose proof (mkstemp_inner_truthy _ _ _ _ _ _ Hs) as Htr.
  rewrite (slow_lane_staged _ _ _ _ _ _ _ Hs Hlen). simpl. rewrite Hw.
  unfold try_finally, raise.
  rewrite remove_if_exists_removed by done. simpl. split; [done|].
  rewrite delete_insert_eq. apply delete_id.
  by destruct (mkstemp_inner_spec _ _ _ _ _ _ _ Hs) as (? & ? & _ & _ & ?).
Qed.

(** Of the files the worker left, the slow lane itself touches only its
    two artifacts: every other path is as the worker left it, on every
    outcome. *)
Theorem slow_lane_touches_only_its_artifacts a l p t w t_audio rest files'
    returncode stdout stderr path :
  mkstemp_inner MODEL_CACHE_DIR "tmp" ".wav" (names w) (files w) = Some (t_audio, rest) ->
  (length a <= disk_free w)%nat ->
  worker (slow_lane_cmd t_audio l p t) sub_env (<[t_audio := a]> (files w)) =
    Exited files' returncode stdout stderr ->
  path <> t_audio -> path <> result_path t_audio ->
  files (snd (run_transcription_slow_lane a l p t w)) !! path = files' !! path.
Proof.
  intros Hs Hlen Hw Hp Hr.
  rewrite (slow_lane_staged _ _ _ _ _ _ _ Hs Hlen). simpl. rewrite Hw.
  destruct (returncode =? 0).
  - rewrite try_finally_snd, cleanup_other by done.
    unfold open_json_load. simpl. by destruct (files' !! result_path t_audio).
  - by rewrite try_finally_snd, remove_if_exists_other.
Qed.


End Failures.

(** ** What one request calls *)

Section Calls.
Context `{D : Deployment}.


(** Whatever worker the slow lane starts is started with the staging
    command line and with the environment of the server in which
    [WHISPER_CACHE_DIR] is set to the model cache directory, every other
    variable being passed on as it is. *)
Theorem slow_lane_spawn_environment a l p t w cmd env :
  EvSpawn cmd env ∈ trace (snd (run_transcription_slow_lane a l p t w)) ->
  EvSpawn cmd env ∈ trace w \/
  (env !! "WHISPER_CACHE_DIR" = Some MODEL_CACHE_DIR /\
   (forall k, k <> "WHISPER_CACHE_DIR" -> env !! k = environ !! k) /\
   exists t_audio,
     cmd = slow_lane_cmd t_audio l p t /\
     cmd !! 0%nat = Some VENV_PYTHON /\ cmd !! 1%nat = Some WHISPER_SCRIPT /\
     cmd !! 2%nat = Some t_audio).
Proof.
  intros Hin.
  destruct (slow_lane_trace a l p t w) as [Ht|(t_audio & rest & _ & Ht)];
    rewrite Ht in Hin; [by left|].
  apply elem_of_app in Hin as [Hin|Hin]; [by left|].
  apply list_elem_of_singleton in Hin. injection Hin as -> ->. right.
  split; [apply lookup_insert_eq|].
  split; [intros k Hk; by apply lookup_insert_ne|].
  by exists t_audio.
Qed.

(** When the result is not a mapping (the worker's JSON may be a list, a
    string, a number or null), [response_format = text] cannot subscript
    it: the request fails with status 500, while any other format returns
    the value as it is. *)
Theorem text_of_non_mapping_fails req w engine res w' :
  whisper_model = Some engine ->
  route req w = (Ok res, w') ->
  (forall d, res <> VDict d) ->
  (response_format req = Some "text" ->
     exists msg, create_transcription req w =
                   (Raise (HTTPException 500 msg), w')) /\
  (response_format req <> Some "text" ->
     create_transcription req w = (Ok res, w')).
Proof.
  intros Hm Hr Hnd. rewrite (create_transcription_shape _ _ _ Hm), Hr. split.
  - intros Hf. apply is_text_iff in Hf. rewrite Hf.
    destruct res; simpl; try by eexists.
    by destruct (Hnd d).
  - intros Hf. destruct (is_text (response_format req)) eqn:E; [|done].
    by apply is_text_iff in E.
Qed.

End Calls.

(** ** Configuration and start-up *)

Section Boot.

Lemma lower_char_t x :
  Ascii.eqb (Config.lower_char x) "t" = Ascii.eqb x "t" || Ascii.eqb x "T".
Proof. by destruct x as [[] [] [] [] [] [] [] []]. Qed.

Lemma lower_char_r x :
  Ascii.eqb (Config.lower_char x) "r" = Ascii.eqb x "r" || Ascii.eqb x "R".
Proof. by destruct x as [[] [] [] [] [] [] [] []]. Qed.

Lemma lower_char_u x :
  Ascii.eqb (Config.lower_char x) "u" = Ascii.eqb x "u" || Ascii.eqb x "U".
Proof. by destruct x as [[] [] [] [] [] [] [] []]. Qed.

Lemma lower_char_e x :
  Ascii.eqb (Config.lower_char x) "e" = Ascii.eqb x "e" || Ascii.eqb x "E".
Proof. by destruct x as [[] [] [] [] [] [] [] []]. Qed.

Lemma lower_char_cases x :
  (Config.lower_char x = "t"%char <-> x = "t"%char \/ x = "T"%char) /\
  (Config.lower_char x = "r"%char <-> x = "r"%char \/ x = "R"%char) /\
  (Config.lower_char x = "u"%char <-> x = "u"%char \/ x = "U"%char) /\
  (Config.lower_char x = "e"%char <-> x = "e"%char \/ x = "E"%char).
Proof.
  rewrite <- !Ascii.eqb_eq, lower_char_t, lower_char_r, lower_char_u, lower_char_e.
  by rewrite !orb_true_iff.
Qed.

(** Debug output is on exactly when [DEBUG] is set to the four letters of
    [true], each in either case; unset, empty, padded or any other value
    leaves it off. *)
Theorem debug_mode_sentinel (environ : gmap string string) :
  Config.DEBUG_MODE environ = true <->
  exists a b c d,
    environ !! "DEBUG" = Some (String a (String b (String c (String d EmptyString)))) /\
    (a = "t" \/ a = "T")%char /\ (b = "r" \/ b = "R")%char /\
    (c = "u" \/ c = "U")%char /\ (d = "e" \/ d = "E")%char.
Proof.
  unfold Config.DEBUG_MODE, Config.environ_get. rewrite String.eqb_eq.
  destruct (environ !! "DEBUG") as [v|].
  - destruct v as [|a [|b [|c [|d [|x v]]]]]; simpl;
      try (split; [by intros H; inversion H
                  |by intros (? & ? & ? & ? & [=] & _)]).
    split.
    + intros [= Ha Hb Hc Hd]. exists a, b, c, d. split; [done|].
      apply (proj1 (lower_char_cases a)) in Ha.
      apply (proj1 (proj2 (lower_char_cases b))) in Hb.
      apply (proj1 (proj2 (proj2 (lower_char_cases c)))) in Hc.
      apply (proj2 (proj2 (proj2 (lower_char_cases d)))) in Hd.
      done.
    + intros (a' & b' & c' & d' & [= <- <- <- <-] & Ha & Hb & Hc & Hd).
      apply (proj1 (lower_char_cases a)) in Ha.
      apply (proj1 (proj2 (lower_char_cases b))) in Hb.
      apply (proj1 (proj2 (proj2 (lower_char_cases c)))) in Hc.
      apply (proj2 (proj2 (proj2 (lower_char_cases d)))) in Hd.
      by rewrite Ha, Hb, Hc, Hd.
  - split; [discriminate|by intros (? & ? & ? & ? & [=] & _)].
Qed.

(** The model cache directory is always a directory named [whisper]:
    under the default home when [XDG_CACHE_HOME] is unset, under the given
    home otherwise, and the relative path [whisper] when the variable is
    set but empty. *)
Theorem model_cache_dir_component (environ : gmap string string) :
  PyStr.basename (Config.MODEL_CACHE_DIR environ) = "whisper" /\
  (environ !! "XDG_CACHE_HOME" = None ->
     Config.MODEL_CACHE_DIR environ = "/opt/ai/models/speech/whisper") /\
  (environ !! "XDG_CACHE_HOME" = Some EmptyString ->
     Config.MODEL_CACHE_DIR environ = "whisper") /\
  (forall home,
     environ !! "XDG_CACHE_HOME" = Some home ->
     home <> EmptyString -> PyStr.endswith PyStr.sep home = false ->
     Config.MODEL_CACHE_DIR environ = home ++ "/whisper").
Proof.
  split; [by apply basename_join|].
  unfold Config.MODEL_CACHE_DIR, Config.XDG_CACHE_HOME, Config.environ_get.
  split; [by intros ->|]. split; [by intros ->|].
  intros home -> Hne He. unfold PyStr.join. simpl. rewrite He.
  apply String.eqb_neq in Hne. by rewrite Hne.
Qed.

(** When [whisper.load_model] raises at start-up, the server still comes
    up: the error is printed whether or not debug output is on,
    [whisper_model] is [None], and from then on every request is refused
    with status 500 before the lock or either lane is tried, the slow
    lane included. *)
Theorem load_failure_disables_endpoint `{D : Deployment} load_model e :
  load_model (Config.model_name environ) (Config.MODEL_CACHE_DIR environ) = Raise e ->
  whisper_model (Deployment := started load_model) = None /\
  ("CRITICAL ERROR: Could not load model: " ++ str_exn e)
     ∈ snd (load_whisper_model load_model []) /\
  forall req w,
    create_transcription (D := started load_model) req w =
      (Raise (HTTPException 500 "Model not loaded."), w).
Proof.
  intros Hl.
  assert (Hm : whisper_model (Deployment := started load_model) = None).
  { simpl. unfold load_whisper_model. by rewrite Hl. }
  split; [done|]. split.
  - unfold load_whisper_model. rewrite Hl. simpl.
    apply elem_of_app. right. apply list_elem_of_singleton. done.
  - intros req w. unfold create_transcription. by rewrite Hm.
Qed.

End Boot.

(** ** More concrete runs *)

Section MoreRuns.
Import Demo MoreDemo.

(** The endpoint's error, at an engine failure. *)
Lemma endpoint_errors_witness :
  fst (create_transcription (D := hot) (request "boom" None None None)
         (world false 100 ∅)) = Raise (HTTPException 500 "engine failure") /\
  exists detail, HTTPException 500 "engine failure" = HTTPException 500 detail.
Proof.
  split; [vm_compute; reflexivity|].
  apply (endpoint_errors_are_http_500 (D := hot) (request "boom" None None None)
           (world false 100 ∅)).
  vm_compute. reflexivity.
Defined.

(** Somebody else's file survives a fast-lane call in which the engine
    raises. *)
Lemma fast_lane_keeps_files_witness :
  files (snd (run_transcription_fast_lane (D := hot) (bytes "boom") None None
                "0.0" (world_with_notes (D := hot) false))) !! "/tmp/notes" =
    Some (bytes "n").
Proof.
  apply (fast_lane_keeps_existing_files (D := hot)). vm_compute. reflexivity.
Defined.

Lemma fast_request_restores_witness :
  files (snd (create_transcription (D := hot) (request "boom" None None None)
                (world_with_notes (D := hot) false))) =
    files (world_with_notes (D := hot) false) /\
  locked (snd (create_transcription (D := hot) (request "boom" None None None)
                 (world_with_notes (D := hot) false))) = false.
Proof.
  apply (fast_request_restores_files (D := hot) (request "boom" None None None)
           (world_with_notes (D := hot) false) engine fast_tmp ["k3k3k3k3"]).
  - reflexivity.
  - reflexivity.
  - vm_compute. reflexivity.
  - vm_compute. lia.
  - apply not_elem_of_empty.
Defined.

(** No candidate name at all. *)
Lemma request_without_temp_name_witness :
  fst (create_transcription (D := hot) (request "RIFFdata" None None None)
         (mkWorld (D := hot) ∅ ∅ 100 [] true [])) =
    Raise (HTTPException 500 "[Errno 17] No usable temporary file name found") /\
  fst (create_transcription (D := hot) (request "RIFFdata" None None None)
         (mkWorld (D := hot) ∅ ∅ 100 [] false [])) =
    Raise (HTTPException 500 "[Errno 17] No usable temporary file name found").
Proof.
  split.
  - apply (request_without_temp_name (D := hot) (request "RIFFdata" None None None)
             (mkWorld (D := hot) ∅ ∅ 100 [] true []) engine eq_refl eq_refl).
  - apply (request_without_temp_name (D := hot) (request "RIFFdata" None None None)
             (mkWorld (D := hot) ∅ ∅ 100 [] false []) engine eq_refl eq_refl).
Defined.



Lemma slow_lane_missing_output_witness :
  fst (run_transcription_slow_lane (D := hot) (bytes "silent") None None "0.0"
         (world true 100 ∅)) =
    Raise (OSError ENOENT "No such file or directory" (Some slow_json)).
Proof.
  apply (slow_lane_missing_output (D := hot) (bytes "silent") None None "0.0"
           (world true 100 ∅) slow_wav ["k3k3k3k3"]
           (<[slow_wav := bytes "silent"]> ∅) EmptyString EmptyString).
  - reflexivity.
  - vm_compute. lia.
  - vm_compute. reflexivity.
  - vm_compute. reflexivity.
  - apply not_elem_of_empty.
Defined.

Lemma slow_lane_spawn_failure_witness :
  fst (run_transcription_slow_lane (D := no_worker) (bytes "RIFFdata") None None
         "0.0" (world_with_notes (D := no_worker) true)) =
    Raise (OSError ENOENT "No such file or directory" (Some VENV_PYTHON)) /\
  files (snd (run_transcription_slow_lane (D := no_worker) (bytes "RIFFdata")
                None None "0.0" (world_with_notes (D := no_worker) true))) =
    files (world_with_notes (D := no_worker) true).
Proof.
  apply (slow_lane_spawn_failure (D := no_worker) (bytes "RIFFdata") None None
           "0.0" (world_with_notes (D := no_worker) true) slow_wav ["k3k3k3k3"]).
  - vm_compute. reflexivity.
  - vm_compute. lia.
  - reflexivity.
  - apply not_elem_of_empty.
Defined.

Lemma slow_lane_touches_only_witness :
  files (snd (run_transcription_slow_lane (D := hot) (bytes "RIFFdata") None None
                "0.0" (world_with_notes (D := hot) true))) !! "/tmp/notes" =
    Some (bytes "n").
Proof.
  rewrite (slow_lane_touches_only_its_artifacts (D := hot) (bytes "RIFFdata")
             None None "0.0" (world_with_notes (D := hot) true) slow_wav
             ["k3k3k3k3"]
             (<[slow_json := transcript_json]>
                (<[slow_wav := bytes "RIFFdata"]>
                   {[ "/tmp/notes" := bytes "n" ]}))
             0 EmptyString EmptyString "/tmp/notes").
  - vm_compute. reflexivity.
  - vm_compute. reflexivity.
  - vm_compute. lia.
  - vm_compute. reflexivity.
  - discriminate.
  - vm_compute. discriminate.
Defined.

Lemma slow_lane_spawn_environment_witness :
  sub_env (D := hot) !! "WHISPER_CACHE_DIR" = Some "/opt/ai/models/speech/whisper" /\
  sub_env (D := hot) !! "PATH" = Some "/usr/bin".
Proof.
  destruct (slow_lane_spawn_environment (D := hot) (bytes "RIFFdata") None None
              "0.0" (world true 100 ∅)
              (slow_lane_cmd (D := hot) slow_wav None None "0.0")
              (sub_env (D := hot)))
    as [Hold|(Hc & Ho & _)].
  - rewrite (slow_lane_trace_staged (D := hot) (bytes "RIFFdata") None None
               "0.0" (world true 100 ∅) slow_wav ["k3k3k3k3"] eq_refl
               ltac:(vm_compute; lia)).
    apply elem_of_app. right. apply list_elem_of_singleton. reflexivity.
  - exfalso. revert Hold. apply not_elem_of_nil.
  - split; [exact Hc|]. rewrite (Ho "PATH" ltac:(discriminate)). reflexivity.
Defined.

Lemma text_of_non_mapping_witness :
  exists msg,
    fst (create_transcription (D := listing)
           (mkRequest (D := listing) (bytes "RIFFdata") None None (Some "text") "0.0")
           (mkWorld (D := listing) ∅ ∅ 100 ["ab12cd_z"] true [])) =
      Raise (HTTPException 500 msg).
Proof.
  assert (Hr : fst (route (D := listing)
                      (mkRequest (D := listing) (bytes "RIFFdata") None None
                         (Some "text") "0.0")
                      (mkWorld (D := listing) ∅ ∅ 100 ["ab12cd_z"] true [])) =
               Ok (VList [VStr "a"]))
    by (vm_compute; reflexivity).
  destruct (route (D := listing) _ _) as [r w1] eqn:E.
  simpl in Hr. subst r.
  destruct (text_of_non_mapping_fails (D := listing) _ _ engine _ _
              eq_refl E ltac:(discriminate)) as [H _].
  destruct (H eq_refl) as [msg Hmsg]. exists msg. by rewrite Hmsg.
Defined.

Lemma load_failure_witness :
  whisper_model (Deployment := broken) = None /\
  create_transcription (D := broken)
    (mkRequest (D := broken) (bytes "RIFFdata") None None None "0.0")
    (mkWorld (D := broken) ∅ ∅ 100 ["ab12cd_z"] false []) =
    (Raise (HTTPException 500 "Model not loaded."),
     mkWorld (D := broken) ∅ ∅ 100 ["ab12cd_z"] false []).
Proof.
  destruct (load_failure_disables_endpoint (D := hot) failing_loader
              (OtherException "RuntimeError" "Model medium not found") eq_refl)
    as (H1 & _ & H2).
  split; [exact H1|]. apply H2.
Defined.

Lemma model_cache_dir_witness :
  Config.MODEL_CACHE_DIR {[ "XDG_CACHE_HOME" := "/var/cache" ]} = "/var/cache/whisper".
Proof.
  apply (proj2 (proj2 (proj2 (model_cache_dir_component
                                {[ "XDG_CACHE_HOME" := "/var/cache" ]})))
           "/var/cache").
  - vm_compute. reflexivity.
  - discriminate.
  - reflexivity.
Defined.

(** The sentinel, at some values of [DEBUG]. *)
Example debug_mode_values :
  Config.DEBUG_MODE {[ "DEBUG" := "TrUe" ]} = true /\
  Config.DEBUG_MODE {[ "DEBUG" := "1" ]} = false /\
  Config.DEBUG_MODE {[ "DEBUG" := "true " ]} = false /\
  Config.DEBUG_MODE ∅ = false.
Proof. vm_compute. repeat split. Qed.

End MoreRuns.
